(** * react-native-draggable-flatlist: the auto-scroll hook

    A shallow embedding of [src/hooks/useAutoScroll.tsx] and the properties
    its specification states about it.

    - JavaScript numbers are modelled by [num]: a finite rational, one of the
      two infinities, or NaN.  Arithmetic on finite values is exact (rounding,
      overflow and the sign of zero are left out); the special values follow
      IEEE 754 as JavaScript exposes it.
    - Reanimated nodes ([lessOrEq], [sub], [and], [cond], ...) are functions
      of the animated values of the current frame; a node that stands for a
      truth value yields 1 or 0.
    - The asynchronous loop [autoscroll] is a coroutine: it runs up to its
      [await] and is resumed when the promise it waits for is resolved.
    - The decorators of [src/components/CellDecorators.tsx] are functions
      from their props and the animation state to the style they set. *)

From Stdlib Require Import QArith Qabs Lqa Bool List Lia PeanoNat.
From Stdlib Require String.
Import ListNotations.

Open Scope Q_scope.

(** * Part I: the program *)

(** ** JavaScript numbers *)

Inductive num : Type :=
| Fin (q : Q)
| PInf
| NInf
| NaN.

Declare Scope num_scope.
Delimit Scope num_scope with num.
Bind Scope num_scope with num.

Definition Qltb (a b : Q) : bool := negb (Qle_bool b a).

Definition Qsgn (a : Q) : comparison := 0 ?= a.

(** The same number: rationals up to [Qeq], special values by name. *)
Definition same (x y : num) : Prop :=
  match x, y with
  | Fin a, Fin b => a == b
  | PInf, PInf => True
  | NInf, NInf => True
  | NaN, NaN => True
  | _, _ => False
  end.

Module JS.

Definition neg (x : num) : num :=
  match x with
  | Fin a => Fin (- a)
  | PInf => NInf
  | NInf => PInf
  | NaN => NaN
  end.

Definition add (x y : num) : num :=
  match x, y with
  | NaN, _ | _, NaN => NaN
  | Fin a, Fin b => Fin (a + b)
  | PInf, NInf | NInf, PInf => NaN
  | PInf, _ | _, PInf => PInf
  | NInf, _ | _, NInf => NInf
  end.

Definition sub (x y : num) : num := add x (neg y).

(** The infinity [pos] names ([+] for [true]), with its sign turned when the
    finite factor [a] is negative; NaN when [a] is 0. *)
Definition scale_inf (a : Q) (pos : bool) : num :=
  match Qsgn a with
  | Eq => NaN
  | Lt => if pos then PInf else NInf
  | Gt => if pos then NInf else PInf
  end.

Definition mul (x y : num) : num :=
  match x, y with
  | NaN, _ | _, NaN => NaN
  | Fin a, Fin b => Fin (a * b)
  | Fin a, PInf | PInf, Fin a => scale_inf a true
  | Fin a, NInf | NInf, Fin a => scale_inf a false
  | PInf, PInf | NInf, NInf => PInf
  | PInf, NInf | NInf, PInf => NInf
  end.

(** Division by 0 gives an infinity, and NaN for 0 / 0. *)
Definition div (x y : num) : num :=
  match x, y with
  | NaN, _ | _, NaN => NaN
  | Fin a, Fin b =>
      if Qeq_bool b 0 then scale_inf a true else Fin (a / b)
  | Fin _, (PInf | NInf) => Fin 0
  | PInf, Fin b => if Qltb b 0 then NInf else PInf
  | NInf, Fin b => if Qltb b 0 then PInf else NInf
  | (PInf | NInf), (PInf | NInf) => NaN
  end.

(** [x <= y]; false as soon as one side is NaN. *)
Definition leb (x y : num) : bool :=
  match x, y with
  | NaN, _ | _, NaN => false
  | Fin a, Fin b => Qle_bool a b
  | NInf, _ | _, PInf => true
  | _, _ => false
  end.

(** [x < y]. *)
Definition ltb (x y : num) : bool :=
  match x, y with
  | NaN, _ | _, NaN => false
  | Fin a, Fin b => Qltb a b
  | PInf, _ | _, NInf => false
  | _, _ => true
  end.

Definition geb (x y : num) : bool := leb y x.

(** [x == y] on numbers. *)
Definition eqb (x y : num) : bool :=
  match x, y with
  | Fin a, Fin b => Qeq_bool a b
  | PInf, PInf | NInf, NInf => true
  | _, _ => false
  end.

(** [Math.max]. *)
Definition max (x y : num) : num :=
  match x, y with
  | NaN, _ | _, NaN => NaN
  | _, _ => if leb x y then y else x
  end.

(** [Math.abs]. *)
Definition abs (x : num) : num :=
  match x with
  | Fin a => Fin (Qabs a)
  | PInf | NInf => PInf
  | NaN => NaN
  end.

(** [!!x] on a number: neither 0 nor NaN. *)
Definition truthy (x : num) : bool :=
  match x with
  | Fin a => negb (Qeq_bool a 0)
  | PInf | NInf => true
  | NaN => false
  end.

Definition of_bool (b : bool) : num := if b then Fin 1 else Fin 0.

End JS.

Notation "x + y" := (JS.add x y) : num_scope.
Notation "x - y" := (JS.sub x y) : num_scope.
Notation "x * y" := (JS.mul x y) : num_scope.
Notation "x / y" := (JS.div x y) : num_scope.
Notation "x <? y" := (JS.ltb x y) : num_scope.
Notation "x <=? y" := (JS.leb x y) : num_scope.
Notation "x >=? y" := (JS.geb x y) : num_scope.

Coercion Fin : Q >-> num.

(** ** Reanimated operators

    Each operator is read at the values its operands have in the current
    frame.  [add], [and] and [or] take any number of operands. *)

Module Node.

Definition sub (a b : num) : num := (a - b)%num.

Definition add (args : list num) : num :=
  match args with
  | [] => Fin 0
  | a :: rest => fold_left JS.add rest a
  end.

Definition max (a b : num) : num := JS.max a b.

Definition abs (a : num) : num := JS.abs a.

Definition lessOrEq (a b : num) : num := JS.of_bool (a <=? b)%num.

Definition greaterOrEq (a b : num) : num := JS.of_bool (a >=? b)%num.

Definition eq (a b : num) : num := JS.of_bool (JS.eqb a b).

Definition not (a : num) : num := JS.of_bool (negb (JS.truthy a)).

Definition and (args : list num) : num :=
  JS.of_bool (forallb JS.truthy args).

Definition or (args : list num) : num :=
  JS.of_bool (existsb JS.truthy args).

End Node.

(** ** Configuration and animated values *)

(** The props of the list and the constants of [../constants] the hook
    reads.  [autoscrollThreshold] and [autoscrollSpeed] are the values left
    after the defaults of [DEFAULT_PROPS] have been filled in. *)
Record Config : Type := {
  autoscrollThreshold : num;
  autoscrollSpeed : num;
  isAndroid : bool;
  SCROLL_POSITION_TOLERANCE : num;
  GestureState_ACTIVE : num
}.

(** The animated values of [useAnimatedValues] and the two the hook makes
    with [useValue]. *)
Record Animated : Type := {
  scrollOffset : num;
  scrollViewSize : num;
  containerSize : num;
  hoverAnim : num;
  isDraggingCell : num;
  activeCellSize : num;
  panGestureState : num;
  targetScrollOffset : num;
  isAutoScrollInProgressNative : num
}.

Definition set_targetScrollOffset (v : num) (a : Animated) : Animated :=
  {| scrollOffset := scrollOffset a;
     scrollViewSize := scrollViewSize a;
     containerSize := containerSize a;
     hoverAnim := hoverAnim a;
     isDraggingCell := isDraggingCell a;
     activeCellSize := activeCellSize a;
     panGestureState := panGestureState a;
     targetScrollOffset := v;
     isAutoScrollInProgressNative := isAutoScrollInProgressNative a |}.

Definition set_isAutoScrollInProgressNative (v : num) (a : Animated)
  : Animated :=
  {| scrollOffset := scrollOffset a;
     scrollViewSize := scrollViewSize a;
     containerSize := containerSize a;
     hoverAnim := hoverAnim a;
     isDraggingCell := isDraggingCell a;
     activeCellSize := activeCellSize a;
     panGestureState := panGestureState a;
     targetScrollOffset := targetScrollOffset a;
     isAutoScrollInProgressNative := v |}.

(** ** The geometry nodes (lines 50-77) *)

Section Geometry.

Variable cfg : Config.
Variable a : Animated.

Definition isScrolledUp : num :=
  Node.lessOrEq
    (Node.sub (scrollOffset a) (SCROLL_POSITION_TOLERANCE cfg)) (Fin 0).

Definition isScrolledDown : num :=
  Node.greaterOrEq
    (Node.add [scrollOffset a; containerSize a;
               SCROLL_POSITION_TOLERANCE cfg])
    (scrollViewSize a).

Definition distToTopEdge : num := Node.max (Fin 0) (hoverAnim a).

Definition distToBottomEdge : num :=
  Node.max (Fin 0)
    (Node.sub (containerSize a)
       (Node.add [hoverAnim a; activeCellSize a])).

Definition isAtTopEdge : num :=
  Node.lessOrEq distToTopEdge (autoscrollThreshold cfg).

Definition isAtBottomEdge : num :=
  Node.lessOrEq distToBottomEdge (autoscrollThreshold cfg).

Definition isAtEdge : num := Node.or [isAtBottomEdge; isAtTopEdge].

Definition autoscrollParams : list num :=
  [distToTopEdge; distToBottomEdge; scrollOffset a;
   isScrolledUp; isScrolledDown].

End Geometry.

(** ** The state on the JavaScript side *)

(** What [autoscroll] and [onAutoscrollComplete] are called with: an array
    of numbers, or a value that cannot be destructured. *)
Inductive Params : Type :=
| Arr (l : list num)
| NotIterable.

(** What [flatlistRef] (from [useRefs]) is, as far as lines 118-125 look at
    it. *)
Inductive FlatlistRef : Type :=
| RefScrollable                 (* has [scrollToOffset] itself *)
| RefGetNode (scrolls : bool)   (* has [getNode]; whether the node scrolls *)
| RefPlain                      (* an object with neither *)
| RefNull.                      (* not an object: [in] throws *)

Record JSState : Type := {
  flatlistRef : FlatlistRef;
  inProgressJS : bool;             (* isAutoScrollInProgress.current.js *)
  isDraggingCellJS : bool;         (* isDraggingCellJS.current *)
  autoscrollLooping : bool;        (* autoscrollLooping.current *)
  resolveAutoscroll : option nat;  (* the promise resolveAutoscroll.current settles *)
  nextPromise : nat;
  awaiting : list (nat * Params);  (* suspended loops: promise awaited, curParams *)
  scrolled : list num              (* offsets passed to scrollToOffset, newest first *)
}.

Record World : Type := {
  anim : Animated;
  js : JSState
}.

Definition set_inProgressJS (b : bool) (s : JSState) : JSState :=
  {| flatlistRef := flatlistRef s;
     inProgressJS := b;
     isDraggingCellJS := isDraggingCellJS s;
     autoscrollLooping := autoscrollLooping s;
     resolveAutoscroll := resolveAutoscroll s;
     nextPromise := nextPromise s;
     awaiting := awaiting s;
     scrolled := scrolled s |}.

Definition set_isDraggingCellJS (b : bool) (s : JSState) : JSState :=
  {| flatlistRef := flatlistRef s;
     inProgressJS := inProgressJS s;
     isDraggingCellJS := b;
     autoscrollLooping := autoscrollLooping s;
     resolveAutoscroll := resolveAutoscroll s;
     nextPromise := nextPromise s;
     awaiting := awaiting s;
     scrolled := scrolled s |}.

Definition set_autoscrollLooping (b : bool) (s : JSState) : JSState :=
  {| flatlistRef := flatlistRef s;
     inProgressJS := inProgressJS s;
     isDraggingCellJS := isDraggingCellJS s;
     autoscrollLooping := b;
     resolveAutoscroll := resolveAutoscroll s;
     nextPromise := nextPromise s;
     awaiting := awaiting s;
     scrolled := scrolled s |}.

(** [new Promise]: a fresh promise whose [resolve] goes to
    [resolveAutoscroll.current]. *)
Definition new_promise (s : JSState) : JSState :=
  {| flatlistRef := flatlistRef s;
     inProgressJS := inProgressJS s;
     isDraggingCellJS := isDraggingCellJS s;
     autoscrollLooping := autoscrollLooping s;
     resolveAutoscroll := Some (nextPromise s);
     nextPromise := S (nextPromise s);
     awaiting := awaiting s;
     scrolled := scrolled s |}.

Definition set_awaiting (l : list (nat * Params)) (s : JSState) : JSState :=
  {| flatlistRef := flatlistRef s;
     inProgressJS := inProgressJS s;
     isDraggingCellJS := isDraggingCellJS s;
     autoscrollLooping := autoscrollLooping s;
     resolveAutoscroll := resolveAutoscroll s;
     nextPromise := nextPromise s;
     awaiting := l;
     scrolled := scrolled s |}.

Definition scrollToOffset (offset : num) (s : JSState) : JSState :=
  {| flatlistRef := flatlistRef s;
     inProgressJS := inProgressJS s;
     isDraggingCellJS := isDraggingCellJS s;
     autoscrollLooping := autoscrollLooping s;
     resolveAutoscroll := resolveAutoscroll s;
     nextPromise := nextPromise s;
     awaiting := awaiting s;
     scrolled := offset :: scrolled s |}.

Definition on_js (f : JSState -> JSState) (w : World) : World :=
  {| anim := anim w; js := f (js w) |}.

Definition on_anim (f : Animated -> Animated) (w : World) : World :=
  {| anim := f (anim w); js := js w |}.

(** ** [getScrollTargetOffset] (lines 128-153) *)

(** The local constants [speedPct] and [speed] (lines 145-147), as
    functions of what they are computed from. *)
Definition speedPct (cfg : Config) (distFromEdge : num) : num :=
  (Fin 1 - distFromEdge / autoscrollThreshold cfg)%num.

Definition speed (cfg : Config) : num :=
  if isAndroid cfg then (autoscrollSpeed cfg / Fin 10)%num
  else autoscrollSpeed cfg.

Definition getScrollTargetOffset (cfg : Config) (s : JSState)
    (distFromTop distFromBottom scrollOffset : num)
    (isScrolledUp isScrolledDown : bool) : num :=
  if inProgressJS s then Fin (-1) else
  let scrollUp := (distFromTop <? autoscrollThreshold cfg)%num in
  let scrollDown := (distFromBottom <? autoscrollThreshold cfg)%num in
  if negb (scrollUp || scrollDown)
     || (scrollUp && isScrolledUp)
     || (scrollDown && isScrolledDown)
  then Fin (-1) else
  let distFromEdge := if scrollUp then distFromTop else distFromBottom in
  let speedPct := speedPct cfg distFromEdge in
  let speed := speed cfg in
  let offset := (speedPct * speed)%num in
  let targetOffset :=
    if scrollUp then JS.max (Fin 0) (scrollOffset - offset)%num
    else (scrollOffset + offset)%num in
  targetOffset.

(** ** [scrollToAsync] (lines 111-126) *)

Inductive Promise : Type :=
| Pending (p : nat)   (* the executor returned; the promise waits for [resolve] *)
| Rejected.           (* the executor threw *)

Definition scrollToAsync (offset : num) (w : World) : World * Promise :=
  let p := nextPromise (js w) in
  let w := on_js new_promise w in
  let w := on_anim (set_targetScrollOffset offset) w in
  let w := on_anim (set_isAutoScrollInProgressNative (Fin 1)) w in
  let w := on_js (set_inProgressJS true) w in
  match flatlistRef (js w) with
  | RefNull => (w, Rejected)
  | RefScrollable | RefGetNode true =>
      (on_js (scrollToOffset offset) w, Pending p)
  | RefGetNode false | RefPlain => (w, Pending p)
  end.

(** ** [autoscroll] (lines 155-199) *)

(** How a run of the [while] loop ends: at the [await], by leaving the loop,
    or by an exception that leaves the [try] block. *)
Inductive LoopResult : Type :=
| Suspended (w : World)
| Exited (w : World)
| Threw (w : World)
| OutOfFuel.

(** An array element, [undefined] past the end; in every place the loop
    uses one, [undefined] acts as NaN does. *)
Definition elem (l : list num) (i : nat) : num := nth i l NaN.

Fixpoint loop (cfg : Config) (fuel : nat) (curParams : Params) (w : World)
  : LoopResult :=
  match fuel with
  | O => OutOfFuel
  | S fuel' =>
      match curParams with
      | NotIterable => Threw w
      | Arr l =>
          let distFromTop := elem l 0 in
          let distFromBottom := elem l 1 in
          let scrollOffset := elem l 2 in
          let isScrolledUp := elem l 3 in
          let isScrolledDown := elem l 4 in
          let targetOffset :=
            getScrollTargetOffset cfg (js w)
              distFromTop distFromBottom scrollOffset
              (JS.truthy isScrolledUp) (JS.truthy isScrolledDown) in
          let scrollingUpAtTop :=
            JS.truthy isScrolledUp && (targetOffset <=? scrollOffset)%num in
          let scrollingDownAtBottom :=
            JS.truthy isScrolledDown && (targetOffset >=? scrollOffset)%num in
          let shouldScroll :=
            (targetOffset >=? Fin 0)%num
            && isDraggingCellJS (js w)
            && negb scrollingUpAtTop
            && negb scrollingDownAtBottom in
          if shouldScroll then
            match scrollToAsync targetOffset w with
            | (w', Pending p) =>
                Suspended
                  (on_js (fun s => set_awaiting ((p, curParams) :: awaiting s) s) w')
            | (w', Rejected) => loop cfg fuel' curParams w'
            end
          else Exited w
      end
  end.

(** The [finally] block runs once the loop is left, not while it waits. *)
Definition finally (r : LoopResult) : option World :=
  match r with
  | Suspended w => Some w
  | Exited w | Threw w => Some (on_js (set_autoscrollLooping false) w)
  | OutOfFuel => None
  end.

Definition loop_fuel : nat := 2.

Definition autoscroll (cfg : Config) (params : Params) (w : World)
  : option World :=
  if autoscrollLooping (js w) then Some w
  else
    finally (loop cfg loop_fuel params (on_js (set_autoscrollLooping true) w)).

(** ** Resolving a promise, and [onAutoscrollComplete] (lines 106-109) *)

Definition awaits (p : nat) (k : nat * Params) : bool := Nat.eqb (fst k) p.

(** Every loop in [ks] goes on with [curParams = v]. *)
Fixpoint resume (cfg : Config) (ks : list (nat * Params)) (v : Params)
    (w : World) : option World :=
  match ks with
  | [] => Some w
  | _ :: ks' =>
      match finally (loop cfg loop_fuel v w) with
      | Some w' => resume cfg ks' v w'
      | None => None
      end
  end.

(** [resolve(v)] for promise [p]: the loops that wait for [p] go on with
    [v]; a promise nobody waits for (any more) has no effect. *)
Definition resolve (cfg : Config) (p : nat) (v : Params) (w : World)
  : option World :=
  let woken := filter (awaits p) (awaiting (js w)) in
  let others := filter (fun k => negb (awaits p k)) (awaiting (js w)) in
  resume cfg woken v (on_js (set_awaiting others) w).

Definition onAutoscrollComplete (cfg : Config) (params : Params) (w : World)
  : option World :=
  let w := on_js (set_inProgressJS false) w in
  match resolveAutoscroll (js w) with
  | Some p => resolve cfg p params w
  | None => Some w
  end.

(** ** The nodes [checkAutoscroll] (lines 201-212) and [onScrollNode]
    (lines 216-238)

    A node is evaluated on the animated values; a [call] it reaches is
    returned with the values of its arguments. *)

Definition checkAutoscroll_cond (cfg : Config) (a : Animated) : num :=
  Node.and
    [isAtEdge cfg a;
     Node.not (Node.and [isAtTopEdge cfg a; isScrolledUp cfg a]);
     Node.not (Node.and [isAtBottomEdge cfg a; isScrolledDown cfg a]);
     Node.eq (panGestureState a) (GestureState_ACTIVE cfg);
     Node.not (isAutoScrollInProgressNative a)].

(** [Some params]: [autoscroll] is called with [params]. *)
Definition checkAutoscroll (cfg : Config) (a : Animated)
  : option (list num) :=
  if JS.truthy (checkAutoscroll_cond cfg a)
  then Some (autoscrollParams cfg a)
  else None.

Definition onScrollNode_cond (cfg : Config) (a : Animated) : num :=
  Node.and
    [isAutoScrollInProgressNative a;
     Node.or
       [Node.lessOrEq
          (Node.abs (Node.sub (targetScrollOffset a) (scrollOffset a)))
          (SCROLL_POSITION_TOLERANCE cfg);
        Node.and
          [isScrolledUp cfg a;
           Node.lessOrEq (targetScrollOffset a) (scrollOffset a)];
        Node.and
          [isScrolledDown cfg a;
           Node.greaterOrEq (targetScrollOffset a) (scrollOffset a)]]].

(** The animated values after the node, and [Some params] when
    [onAutoscrollComplete] is called with [params]. *)
Definition onScrollNode (cfg : Config) (a : Animated)
  : Animated * option (list num) :=
  if JS.truthy (onScrollNode_cond cfg a)
  then
    let a' := set_isAutoScrollInProgressNative (Fin 0) a in
    (a', Some (autoscrollParams cfg a'))
  else (a, None).

(** ** What can happen to the hook *)

(** The values the list and the gesture handler drive; the hook's own two
    values stay. *)
Definition set_inputs (i a : Animated) : Animated :=
  {| scrollOffset := scrollOffset i;
     scrollViewSize := scrollViewSize i;
     containerSize := containerSize i;
     hoverAnim := hoverAnim i;
     isDraggingCell := isDraggingCell i;
     activeCellSize := activeCellSize i;
     panGestureState := panGestureState i;
     targetScrollOffset := targetScrollOffset a;
     isAutoScrollInProgressNative := isAutoScrollInProgressNative a |}.

Inductive Event : Type :=
| Inputs (i : Animated)          (* the list scrolls, the cell moves, the gesture changes *)
| DraggingChanged (v : num)      (* the callback of [onChange(isDraggingCell, ...)] *)
| EvalCheckAutoscroll            (* [checkAutoscroll] is evaluated, its call delivered *)
| EvalOnScrollNode               (* [onScrollNode] is evaluated, its call delivered *)
| CallAutoscroll (p : Params)    (* a call of [autoscroll] arrives *)
| CallOnAutoscrollComplete (p : Params).

Definition exec (cfg : Config) (e : Event) (w : World) : option World :=
  match e with
  | Inputs i => Some (on_anim (set_inputs i) w)
  | DraggingChanged v =>
      Some (on_js (set_isDraggingCellJS (JS.truthy v)) w)
  | EvalCheckAutoscroll =>
      match checkAutoscroll cfg (anim w) with
      | Some params => autoscroll cfg (Arr params) w
      | None => Some w
      end
  | EvalOnScrollNode =>
      match onScrollNode cfg (anim w) with
      | (a', Some params) =>
          onAutoscrollComplete cfg (Arr params) (on_anim (fun _ => a') w)
      | (a', None) => Some (on_anim (fun _ => a') w)
      end
  | CallAutoscroll p => autoscroll cfg p w
  | CallOnAutoscrollComplete p => onAutoscrollComplete cfg p w
  end.

Fixpoint run (cfg : Config) (es : list Event) (w : World) : option World :=
  match es with
  | [] => Some w
  | e :: es' =>
      match exec cfg e w with
      | Some w' => run cfg es' w'
      | None => None
      end
  end.

(** The hook as [useAutoScroll] leaves it after the first render. *)
Definition initial (ref : FlatlistRef) (a : Animated) : World :=
  {| anim :=
       set_isAutoScrollInProgressNative (Fin 0)
         (set_targetScrollOffset (Fin 0) a);
     js :=
       {| flatlistRef := ref;
          inProgressJS := false;
          isDraggingCellJS := false;
          autoscrollLooping := false;
          resolveAutoscroll := None;
          nextPromise := O;
          awaiting := [];
          scrolled := [] |} |}.

(** ** The words of the specification

    Definitions that follow sections 4.1, 4.4 and 4.5 of the specification,
    to compare the program with. *)

Module Spec.

Section Geometry.

Variables ScrollOffset ViewportExtent ContentExtent : num.
Variables DragPosition DraggedCellExtent : num.
Variables tolerance EdgeThreshold : num.

Definition isScrolledUp : bool := (ScrollOffset - tolerance <=? Fin 0)%num.

Definition isScrolledDown : bool :=
  (ScrollOffset + ViewportExtent + tolerance >=? ContentExtent)%num.

Definition distToTopEdge : num := JS.max (Fin 0) DragPosition.

Definition distToBottomEdge : num :=
  JS.max (Fin 0) (ViewportExtent - (DragPosition + DraggedCellExtent))%num.

Definition isAtTopEdge : bool := (distToTopEdge <=? EdgeThreshold)%num.

Definition isAtBottomEdge : bool := (distToBottomEdge <=? EdgeThreshold)%num.

Definition isAtEdge : bool := isAtTopEdge || isAtBottomEdge.

End Geometry.

(** Section 4.5: the completion condition. *)
Definition completes (inFlight target offset tolerance : num)
    (isScrolledUp isScrolledDown : bool) : bool :=
  JS.truthy inFlight
  && ((JS.abs (target - offset) <=? tolerance)%num
      || (isScrolledUp && (target <=? offset)%num)
      || (isScrolledDown && (target >=? offset)%num)).

Inductive Direction : Type := Up | Down.

(** Section 4.4, step 2: up when [distFromTop < EdgeThreshold], or else down
    when [distFromBottom < EdgeThreshold]. *)
Definition direction (cfg : Config) (distFromTop distFromBottom : num)
  : option Direction :=
  if (distFromTop <? autoscrollThreshold cfg)%num then Some Up
  else if (distFromBottom <? autoscrollThreshold cfg)%num then Some Down
  else None.

Definition boundary (d : Direction) (isScrolledUp isScrolledDown : bool)
  : bool :=
  match d with Up => isScrolledUp | Down => isScrolledDown end.

Definition distFromEdge (d : Direction) (distFromTop distFromBottom : num)
  : num :=
  match d with Up => distFromTop | Down => distFromBottom end.

(** Step 6: [ScrollSpeed] divided by 10 on Android, unchanged otherwise. *)
Definition effectiveSpeed (cfg : Config) : num :=
  if isAndroid cfg then (autoscrollSpeed cfg / Fin 10)%num
  else autoscrollSpeed cfg.

(** Steps 5 and 7. *)
Definition delta (cfg : Config) (distFromEdge : num) : num :=
  ((Fin 1 - distFromEdge / autoscrollThreshold cfg) * effectiveSpeed cfg)%num.

(** Step 8. *)
Definition target (cfg : Config) (d : Direction)
    (distFromTop distFromBottom ScrollOffset : num) : num :=
  let delta := delta cfg (distFromEdge d distFromTop distFromBottom) in
  match d with
  | Up => JS.max (Fin 0) (ScrollOffset - delta)%num
  | Down => (ScrollOffset + delta)%num
  end.

End Spec.

(** ** Notions the properties are stated with *)

(** The guard of lines 135-143 lets a target through. *)
Definition produces_target (cfg : Config) (s : JSState)
    (distFromTop distFromBottom : num) (isScrolledUp isScrolledDown : bool)
  : bool :=
  let scrollUp := (distFromTop <? autoscrollThreshold cfg)%num in
  let scrollDown := (distFromBottom <? autoscrollThreshold cfg)%num in
  negb (inProgressJS s)
  && negb (negb (scrollUp || scrollDown)
           || (scrollUp && isScrolledUp)
           || (scrollDown && isScrolledDown)).

(** How far a target is from the offset. *)
Definition magnitude (offset target : num) : num :=
  JS.abs (offset - target)%num.

(** The loop is left without a scroll: by the end of the [while], or by the
    exception of destructuring what is not an array. *)
Definition leaves (cur : Params) (w : World) : LoopResult :=
  match cur with
  | Arr _ => Exited w
  | NotIterable => Threw w
  end.

(** The two ways a run of the loop ends, with what it leaves of the state:
    it is left, the suspended loops and the guard as they were, and nothing
    changed at all unless a drag is going on; or it waits for the promise it
    made, which is the one [resolveAutoscroll.current] settles. *)
Inductive loop_outcome (cur : Params) (w : World) : LoopResult -> Prop :=
| outcome_left w' :
    awaiting (js w') = awaiting (js w) ->
    autoscrollLooping (js w') = autoscrollLooping (js w) ->
    isDraggingCellJS (js w') = isDraggingCellJS (js w) ->
    (isDraggingCellJS (js w) = false -> w' = w) ->
    loop_outcome cur w (leaves cur w')
| outcome_suspended w' p :
    awaiting (js w') = (p, cur) :: awaiting (js w) ->
    resolveAutoscroll (js w') = Some p ->
    autoscrollLooping (js w') = autoscrollLooping (js w) ->
    isDraggingCellJS (js w') = true ->
    isDraggingCellJS (js w) = true ->
    loop_outcome cur w (Suspended w').

(** The invariant of the guard: no loop is alive and the guard is free, or
    one loop is alive, the guard is held, and the loop waits for the promise
    [resolveAutoscroll.current] settles. *)
Definition single_flight (s : JSState) : Prop :=
  match awaiting s with
  | [] => autoscrollLooping s = false
  | [(p, _)] => autoscrollLooping s = true /\ resolveAutoscroll s = Some p
  | _ :: _ :: _ => False
  end.

(** An event that does not start a drag. *)
Definition drag_stays_ended (e : Event) : Prop :=
  match e with
  | DraggingChanged v => JS.truthy v = false
  | _ => True
  end.

(** From [w] to [w'] no drag has started and nothing was scrolled. *)
Definition quiet (w w' : World) : Prop :=
  isDraggingCellJS (js w') = false /\ scrolled (js w') = scrolled (js w).

(** ** Values to evaluate on *)

(** Threshold 50, speed 100, not Android, tolerance 2, ACTIVE = 4. *)
Definition cfg0 : Config :=
  {| autoscrollThreshold := Fin 50;
     autoscrollSpeed := Fin 100;
     isAndroid := false;
     SCROLL_POSITION_TOLERANCE := Fin 2;
     GestureState_ACTIVE := Fin 4 |}.

(** A list of 1000 in a viewport of 400, scrolled to 200; a cell of 40 held
    10 below the top. *)
Definition frame0 : Animated :=
  {| scrollOffset := Fin 200;
     scrollViewSize := Fin 1000;
     containerSize := Fin 400;
     hoverAnim := Fin 10;
     isDraggingCell := Fin 1;
     activeCellSize := Fin 40;
     panGestureState := Fin 4;
     targetScrollOffset := Fin 0;
     isAutoScrollInProgressNative := Fin 0 |}.

(** The same list one unit short of the target 120 of a scroll in flight. *)
Definition frame1 : Animated :=
  {| scrollOffset := Fin 121;
     scrollViewSize := Fin 1000;
     containerSize := Fin 400;
     hoverAnim := Fin 10;
     isDraggingCell := Fin 1;
     activeCellSize := Fin 40;
     panGestureState := Fin 4;
     targetScrollOffset := Fin 120;
     isAutoScrollInProgressNative := Fin 1 |}.

(** Nothing in flight, a drag going on. *)
Definition js0 : JSState :=
  {| flatlistRef := RefScrollable;
     inProgressJS := false;
     isDraggingCellJS := true;
     autoscrollLooping := false;
     resolveAutoscroll := None;
     nextPromise := O;
     awaiting := [];
     scrolled := [] |}.

(** A loop waits for the scroll to 120 to complete; [dragging] says whether
    the drag still goes on. *)
Definition js1 (dragging : bool) : JSState :=
  {| flatlistRef := RefScrollable;
     inProgressJS := true;
     isDraggingCellJS := dragging;
     autoscrollLooping := true;
     resolveAutoscroll := Some O;
     nextPromise := 1%nat;
     awaiting := [(O, Arr (autoscrollParams cfg0 frame0))];
     scrolled := [Fin 120] |}.

(** ** One iteration of the loop, by name *)

(** The local constant [targetOffset] of an iteration (lines 171-177). *)
Definition targetOf (cfg : Config) (w : World) (l : list num) : num :=
  getScrollTargetOffset cfg (js w) (elem l 0) (elem l 1) (elem l 2)
    (JS.truthy (elem l 3)) (JS.truthy (elem l 4)).

(** The local constant [shouldScroll] (lines 178-188). *)
Definition shouldScroll (cfg : Config) (w : World) (l : list num) : bool :=
  let targetOffset := targetOf cfg w l in
  let scrollingUpAtTop :=
    JS.truthy (elem l 3) && (targetOffset <=? elem l 2)%num in
  let scrollingDownAtBottom :=
    JS.truthy (elem l 4) && (targetOffset >=? elem l 2)%num in
  (targetOffset >=? Fin 0)%num
  && isDraggingCellJS (js w)
  && negb scrollingUpAtTop
  && negb scrollingDownAtBottom.

(** The [finally] block. *)
Definition unlock (w : World) : World :=
  on_js (set_autoscrollLooping false) w.

(** The loop suspended at [await], waiting for promise [p]. *)
Definition wait (p : nat) (cur : Params) (w : World) : World :=
  on_js (fun s => set_awaiting ((p, cur) :: awaiting s) s) w.

(** The state a run of the loop leaves, once [finally] has run if the loop
    was left. *)
Definition after_loop (cfg : Config) (cur : Params) (w : World) : World :=
  match cur with
  | NotIterable => unlock w
  | Arr l =>
      if shouldScroll cfg w l then
        match scrollToAsync (targetOf cfg w l) w with
        | (w', Pending p) => wait p cur w'
        | (w', Rejected) => unlock w'
        end
      else unlock w
  end.

(** The viewport reference leads to a node that scrolls. *)
Definition scrolls (r : FlatlistRef) : bool :=
  match r with
  | RefScrollable | RefGetNode true => true
  | RefGetNode false | RefPlain | RefNull => false
  end.

(** An event that can deliver a completion to [onAutoscrollComplete]. *)
Definition completion (e : Event) : bool :=
  match e with
  | EvalOnScrollNode | CallOnAutoscrollComplete _ => true
  | _ => false
  end.

(** The first four statements of the executor of [scrollToAsync]
    (lines 113-116): the promise made, the target and both flags set. *)
Definition armed (offset : num) (w : World) : World :=
  on_js (set_inProgressJS true)
    (on_anim (set_isAutoScrollInProgressNative (Fin 1))
       (on_anim (set_targetScrollOffset offset) (on_js new_promise w))).

(** A target the loop's test [targetOffset >= 0] lets through. *)
Definition valid_offset (x : num) : Prop := (x >=? Fin 0)%num = true.

(** What holds of the hook between two events, from the first render on:
    the guard's invariant; a waiting loop keeps the JS flag set; every
    offset sent to the list passed the test [>= 0]; the last one sent is the
    value of [targetScrollOffset]; a reference that does not scroll has sent
    none. *)
Definition hook_inv (w : World) : Prop :=
  single_flight (js w)
  /\ (awaiting (js w) <> [] -> inProgressJS (js w) = true)
  /\ Forall valid_offset (scrolled (js w))
  /\ match scrolled (js w) with
     | [] => True
     | x :: _ => targetScrollOffset (anim w) = x
     end
  /\ (scrolls (flatlistRef (js w)) = false -> scrolled (js w) = []).

(** Scroll commands sent, plus one while no loop waits. *)
Definition pace (w : World) : nat :=
  (length (scrolled (js w))
   + match awaiting (js w) with [] => 1 | _ :: _ => 0 end)%nat.

(** ** The cell decorators ([src/components/CellDecorators.tsx])

    [isActive] and [onActiveAnim] come from the hook
    [useOnCellActiveAnimation]; they are taken as they come.  A prop left
    out is [None] and gets the default of the component. *)

Module Decorators.

Import String.
Local Open Scope string_scope.

Definition multiply (a b : num) : num := (a * b)%num.

Definition divide (a b : num) : num := (a / b)%num.

(** Reanimated's [interpolateNode] (and the older [interpolate]) on ranges
    of two values, with the default extrapolation, which extends the line:
    [outS + (value - inS) / (inE - inS) * (outE - outS)], and for an empty
    input range [outS] up to [inS], [outE] above. *)
Definition interpolateFn (value : num) (inputRange outputRange : num * num)
  : num :=
  let (inS, inE) := inputRange in
  let (outS, outE) := outputRange in
  let progress := divide (Node.sub value inS) (Node.sub inE inS) in
  let resultForNonZeroRange :=
    Node.add [outS; multiply progress (Node.sub outE outS)] in
  if JS.truthy (Node.eq inS inE)
  then (if JS.truthy (Node.lessOrEq value inS) then outS else outE)
  else resultForNonZeroRange.

Definition black : string := "black".

Definition transparent : string := "transparent".

Definition default {A : Type} (prop : option A) (d : A) : A :=
  match prop with Some v => v | None => d end.

(** The style of [ScaleDecorator] (lines 21-41). *)
Record ScaleStyle : Type := { scaleX : num; scaleY : num }.

Definition ScaleDecorator (isActive : bool) (onActiveAnim : num)
    (activeScale : option num) : ScaleStyle :=
  let activeScale := default activeScale (Fin (11 # 10)) in
  let animScale :=
    interpolateFn onActiveAnim (Fin 0, Fin 1) (Fin 1, activeScale) in
  let scale := if isActive then animScale else Fin 1 in
  {| scaleX := scale; scaleY := scale |}.

(** The style of [ShadowDecorator] (lines 51-69). *)
Record ShadowStyle : Type := {
  elevation : num;
  shadowRadius : num;
  shadowColor : string;
  shadowOpacity : num
}.

Definition ShadowDecorator (isActive : bool) (onActiveAnim : num)
    (elevation_ : option num) (color : option string) (opacity : option num)
    (radius : option num) : ShadowStyle :=
  let elevation_ := default elevation_ (Fin 10) in
  let color := default color black in
  let opacity := default opacity (Fin (25 # 100)) in
  let radius := default radius (Fin 5) in
  let shadowOpacity_ := multiply onActiveAnim opacity in
  {| elevation := if isActive then elevation_ else Fin 0;
     shadowRadius := if isActive then radius else Fin 0;
     shadowColor := if isActive then color else transparent;
     shadowOpacity := if isActive then shadowOpacity_ else Fin 0 |}.

(** The style of [OpacityDecorator] (lines 76-93). *)
Definition OpacityDecorator (isActive : bool) (onActiveAnim : num)
    (activeOpacity : option num) : num :=
  let activeOpacity := default activeOpacity (Fin (25 # 100)) in
  let opacity :=
    interpolateFn onActiveAnim (Fin 0, Fin 1) (Fin 1, activeOpacity) in
  if isActive then opacity else Fin 1.

End Decorators.

(** ** More values to evaluate on *)

(** A list of 300 in a viewport of 400: all of it shows. *)
Definition frame_fits : Animated :=
  {| scrollOffset := Fin 0;
     scrollViewSize := Fin 300;
     containerSize := Fin 400;
     hoverAnim := Fin 10;
     isDraggingCell := Fin 1;
     activeCellSize := Fin 40;
     panGestureState := Fin 4;
     targetScrollOffset := Fin 0;
     isAutoScrollInProgressNative := Fin 0 |}.

(** The hook at rest during a drag near the top edge. *)
Definition world0 : World := {| anim := frame0; js := js0 |}.

(** The same with no drag going on. *)
Definition world_idle : World :=
  {| anim := frame0; js := set_isDraggingCellJS false js0 |}.

(** The same with a viewport reference that is not an object. *)
Definition world_null : World :=
  on_js (set_isDraggingCellJS true) (initial RefNull frame0).

(** * Part II: properties *)

(** ** Numbers *)

Lemma Qltb_lt (a b : Q) : Qltb a b = true <-> a < b.
Proof.
  unfold Qltb. rewrite negb_true_iff, <- not_true_iff_false, Qle_bool_iff.
  split; intros H; [apply Qnot_le_lt | apply Qlt_not_le]; exact H.
Qed.

Lemma Qltb_ge (a b : Q) : Qltb a b = false <-> b <= a.
Proof.
  unfold Qltb. rewrite negb_false_iff. apply Qle_bool_iff.
Qed.

Lemma Qle_bool_gt (a b : Q) : Qle_bool a b = false <-> b < a.
Proof.
  rewrite <- not_true_iff_false, Qle_bool_iff.
  split; intros H; [apply Qnot_le_lt | apply Qlt_not_le]; exact H.
Qed.

Lemma leb_Fin (a b : Q) : (Fin a <=? Fin b)%num = true <-> a <= b.
Proof. apply Qle_bool_iff. Qed.

Lemma geb_Fin (a b : Q) : (Fin a >=? Fin b)%num = true <-> b <= a.
Proof. apply Qle_bool_iff. Qed.

Lemma Qeq_bool_false (a b : Q) : Qeq_bool a b = false <-> ~ a == b.
Proof.
  rewrite <- not_true_iff_false, Qeq_bool_iff. reflexivity.
Qed.

Lemma truthy_of_bool (b : bool) : JS.truthy (JS.of_bool b) = b.
Proof. destruct b; reflexivity. Qed.

Lemma max_Fin (a b : Q) :
  JS.max (Fin a) (Fin b) = Fin (if Qle_bool a b then b else a).
Proof. simpl. destruct (Qle_bool a b); reflexivity. Qed.

Lemma div_Fin (a b : Q) : ~ b == 0 -> (Fin a / Fin b)%num = Fin (a / b).
Proof.
  intros H. simpl. apply Qeq_bool_false in H. rewrite H. reflexivity.
Qed.

(** Turn the tests on rationals among the hypotheses into inequalities. *)
Ltac tests_to_props :=
  repeat match goal with
    | H : Qle_bool _ _ = true |- _ => apply Qle_bool_iff in H
    | H : Qle_bool _ _ = false |- _ => apply Qle_bool_gt in H
    | H : Qltb _ _ = true |- _ => apply Qltb_lt in H
    | H : Qltb _ _ = false |- _ => apply Qltb_ge in H
    end.

Lemma max0_ge (x : Q) : (JS.max (Fin 0) (Fin x) >=? Fin 0)%num = true.
Proof.
  rewrite max_Fin. apply geb_Fin.
  destruct (Qle_bool 0 x) eqn:E; tests_to_props; lra.
Qed.

Lemma max0_same (x y : Q) :
  x == y -> same (JS.max (Fin 0) (Fin x)) (JS.max (Fin 0) (Fin y)).
Proof.
  intros E. rewrite !max_Fin. simpl.
  destruct (Qle_bool 0 x) eqn:Ex, (Qle_bool 0 y) eqn:Ey;
    tests_to_props; lra.
Qed.

(** The ramp [1 - d / t] on distances below a threshold. *)
Lemma ramp_pos (d t : Q) :
  0 <= d -> d < t -> 0 < 1 - d / t /\ 1 - d / t <= 1.
Proof.
  intros H0 Hlt.
  assert (Ht : 0 < t) by lra.
  assert (H1 : d / t < 1) by (apply Qlt_shift_div_r; lra).
  assert (H2 : 0 <= d / t) by (apply Qle_shift_div_l; lra).
  lra.
Qed.

Lemma ramp_antitone (d1 d2 t : Q) :
  0 < t -> d1 <= d2 -> 1 - d2 / t <= 1 - d1 / t.
Proof.
  intros Ht H.
  assert (d1 / t <= d2 / t).
  { unfold Qdiv. apply Qmult_le_compat_r; [exact H|].
    apply Qlt_le_weak, Qinv_lt_0_compat, Ht. }
  lra.
Qed.

(** Two products with the ramp are ordered by the sign of the speed. *)
Lemma delta_order (u1 u2 v : Q) :
  0 <= u2 -> u2 <= u1 ->
  (0 <= u2 * v /\ u2 * v <= u1 * v) \/ (u1 * v <= u2 * v /\ u2 * v <= 0).
Proof.
  intros H2 H12. destruct (Qlt_le_dec v 0) as [Hv | Hv].
  - right. split.
    + setoid_replace (u1 * v) with (- (u1 * - v)) by ring.
      setoid_replace (u2 * v) with (- (u2 * - v)) by ring.
      apply Qopp_le_compat. apply Qmult_le_compat_r; lra.
    + setoid_replace (u2 * v) with (- (u2 * - v)) by ring.
      assert (0 <= u2 * - v) by (apply Qmult_le_0_compat; lra). lra.
  - left. split.
    + apply Qmult_le_0_compat; assumption.
    + apply Qmult_le_compat_r; assumption.
Qed.

(** ** The geometry evaluator *)

Section GeometryFacts.

Variable cfg : Config.
Variable a : Animated.

Let tol := SCROLL_POSITION_TOLERANCE cfg.
Let T := autoscrollThreshold cfg.

(** C7.  In every frame the geometry nodes have the values the
    specification gives: [isScrolledUp] is [ScrollOffset - tolerance <= 0],
    [isScrolledDown] is
    [ScrollOffset + ViewportExtent + tolerance >= ContentExtent],
    [distToTopEdge] is [max(0, DragPosition)], [distToBottomEdge] is
    [max(0, ViewportExtent - (DragPosition + DraggedCellExtent))],
    [isAtTopEdge] and [isAtBottomEdge] compare these with [EdgeThreshold],
    and [isAtEdge] is their disjunction.  The nodes are functions of the
    animated values only, so evaluating them changes nothing. *)
Theorem geometry_evaluator :
  isScrolledUp cfg a = JS.of_bool (Spec.isScrolledUp (scrollOffset a) tol)
  /\ isScrolledDown cfg a
     = JS.of_bool
         (Spec.isScrolledDown (scrollOffset a) (containerSize a)
            (scrollViewSize a) tol)
  /\ distToTopEdge a = Spec.distToTopEdge (hoverAnim a)
  /\ distToBottomEdge a
     = Spec.distToBottomEdge (containerSize a) (hoverAnim a)
         (activeCellSize a)
  /\ isAtTopEdge cfg a = JS.of_bool (Spec.isAtTopEdge (hoverAnim a) T)
  /\ isAtBottomEdge cfg a
     = JS.of_bool
         (Spec.isAtBottomEdge (containerSize a) (hoverAnim a)
            (activeCellSize a) T)
  /\ isAtEdge cfg a
     = JS.of_bool
         (Spec.isAtEdge (containerSize a) (hoverAnim a) (activeCellSize a) T).
Proof.
  repeat split; try reflexivity.
  unfold isAtEdge, Node.or, Spec.isAtEdge. simpl existsb.
  fold (Spec.distToTopEdge (hoverAnim a)).
  unfold isAtBottomEdge, isAtTopEdge, Node.lessOrEq.
  rewrite !truthy_of_bool, orb_false_r, orb_comm. reflexivity.
Qed.

End GeometryFacts.

(** ** The edge trigger and the completion detector *)

Section NodeFacts.

Variable cfg : Config.

(** C3.  [checkAutoscroll] calls [autoscroll], with the snapshot
    [distToTopEdge, distToBottomEdge, scrollOffset, isScrolledUp,
    isScrolledDown], exactly when [isAtEdge] holds, not both [isAtTopEdge]
    and [isScrolledUp], not both [isAtBottomEdge] and [isScrolledDown], the
    pan gesture state is ACTIVE, and the native in-flight flag is false.
    So where [isAtEdge] is false no call is made, and evaluating the node
    leaves the hook as it was. *)
Theorem edge_trigger (a : Animated) :
  (forall params,
      checkAutoscroll cfg a = Some params <->
      (JS.truthy (isAtEdge cfg a) = true
       /\ ~ (JS.truthy (isAtTopEdge cfg a) = true
             /\ JS.truthy (isScrolledUp cfg a) = true)
       /\ ~ (JS.truthy (isAtBottomEdge cfg a) = true
             /\ JS.truthy (isScrolledDown cfg a) = true)
       /\ JS.eqb (panGestureState a) (GestureState_ACTIVE cfg) = true
       /\ JS.truthy (isAutoScrollInProgressNative a) = false)
      /\ params
         = [distToTopEdge a; distToBottomEdge a; scrollOffset a;
            isScrolledUp cfg a; isScrolledDown cfg a])
  /\ (JS.truthy (isAtEdge cfg a) = false ->
      checkAutoscroll cfg a = None
      /\ forall s, exec cfg EvalCheckAutoscroll {| anim := a; js := s |}
                   = Some {| anim := a; js := s |}).
Proof.
  unfold checkAutoscroll, checkAutoscroll_cond, autoscrollParams.
  unfold Node.and at 1. simpl forallb.
  unfold Node.not, Node.eq, Node.and. simpl forallb.
  rewrite !truthy_of_bool, !andb_true_r.
  split.
  - intros params.
    destruct (JS.truthy (isAtEdge cfg a)),
      (JS.truthy (isAtTopEdge cfg a)),
      (JS.truthy (isScrolledUp cfg a)),
      (JS.truthy (isAtBottomEdge cfg a)),
      (JS.truthy (isScrolledDown cfg a)),
      (JS.eqb (panGestureState a) (GestureState_ACTIVE cfg)),
      (JS.truthy (isAutoScrollInProgressNative a)); simpl;
      (split;
       [ intros H; try discriminate H; injection H as <-;
         repeat split; try reflexivity; intros [? ?]; discriminate
       | intros [(H1 & H2 & H3 & H4 & H5) ->];
         try discriminate; try reflexivity;
         try (exfalso; apply H2; split; reflexivity);
         try (exfalso; apply H3; split; reflexivity) ]).
  - intros H. rewrite H. simpl. split; [reflexivity|].
    intros s. unfold exec, checkAutoscroll, checkAutoscroll_cond.
    unfold Node.and at 1. simpl forallb. cbn [anim]. rewrite H. reflexivity.
Qed.

(** The completion detector on the node alone: whether it fires, and what
    it then does to the animated values and calls. *)
Lemma onScrollNode_fires (a : Animated) :
  onScrollNode cfg a
  = if Spec.completes
         (isAutoScrollInProgressNative a) (targetScrollOffset a)
         (scrollOffset a) (SCROLL_POSITION_TOLERANCE cfg)
         (JS.truthy (isScrolledUp cfg a)) (JS.truthy (isScrolledDown cfg a))
    then (set_isAutoScrollInProgressNative (Fin 0) a,
          Some [distToTopEdge a; distToBottomEdge a; scrollOffset a;
                isScrolledUp cfg a; isScrolledDown cfg a])
    else (a, None).
Proof.
  unfold onScrollNode, onScrollNode_cond, Spec.completes.
  unfold Node.and, Node.or, Node.lessOrEq at 1, Node.greaterOrEq at 1.
  unfold Node.lessOrEq at 1. unfold Node.abs, Node.sub at 1.
  simpl forallb. simpl existsb.
  rewrite !truthy_of_bool, !andb_true_r, !orb_false_r, orb_assoc.
  reflexivity.
Qed.

End NodeFacts.

(** With the cell in the middle of the viewport no edge is near, and
    nothing is called. *)
Lemma edge_trigger_witness :
  checkAutoscroll cfg0 (set_inputs
                          {| scrollOffset := Fin 200;
                             scrollViewSize := Fin 1000;
                             containerSize := Fin 400;
                             hoverAnim := Fin 180;
                             isDraggingCell := Fin 1;
                             activeCellSize := Fin 40;
                             panGestureState := Fin 4;
                             targetScrollOffset := Fin 0;
                             isAutoScrollInProgressNative := Fin 0 |}
                          frame0)
  = None.
Proof.
  apply (edge_trigger cfg0). reflexivity.
Defined.

(** ** The target offset *)

Section TargetFacts.

Variable cfg : Config.
Variable s : JSState.

Let T := autoscrollThreshold cfg.

(** C4.  [getScrollTargetOffset] returns the sentinel -1 when the JS-side
    in-flight flag is set, when neither distance is below the threshold,
    when the top distance is below it and [isScrolledUp] holds, and when
    the bottom distance is below it and [isScrolledDown] holds.  The loop
    then issues no scroll command and exits. *)
Theorem sentinel_cases
    (distFromTop distFromBottom offset : num) (up down : bool) :
  inProgressJS s = true
  \/ ((distFromTop <? T)%num = false /\ (distFromBottom <? T)%num = false)
  \/ ((distFromTop <? T)%num = true /\ up = true)
  \/ ((distFromBottom <? T)%num = true /\ down = true) ->
  getScrollTargetOffset cfg s distFromTop distFromBottom offset up down
  = Fin (-1)
  /\ forall w isUp isDown fuel,
      js w = s -> JS.truthy isUp = up -> JS.truthy isDown = down ->
      loop cfg (S fuel)
        (Arr [distFromTop; distFromBottom; offset; isUp; isDown]) w
      = Exited w.
Proof.
  intros H.
  assert (E : getScrollTargetOffset cfg s distFromTop distFromBottom
                offset up down = Fin (-1)).
  { unfold getScrollTargetOffset. fold T.
    destruct (inProgressJS s); [reflexivity|].
    destruct H as [H | [[H1 H2] | [[H1 H2] | [H1 H2]]]].
    - discriminate H.
    - rewrite H1, H2. reflexivity.
    - rewrite H1, H2. reflexivity.
    - rewrite H1, H2. destruct (distFromTop <? T)%num, up; reflexivity. }
  split; [exact E|].
  intros w isUp isDown fuel Hs Hu Hd. simpl.
  unfold elem. simpl nth. rewrite Hs, Hu, Hd, E. reflexivity.
Qed.

(** C1 as amended.  When nothing is in flight, a direction applies, and
    neither [distFromTop < EdgeThreshold] with [isScrolledUp] nor
    [distFromBottom < EdgeThreshold] with [isScrolledDown] holds, the
    target is [max(0, ScrollOffset - delta)] going up and
    [ScrollOffset + delta] going down, with
    [delta = (1 - distFromEdge / EdgeThreshold) * effectiveSpeed]. *)
Theorem target_formula
    (distFromTop distFromBottom offset : num) (up down : bool)
    (d : Spec.Direction) :
  inProgressJS s = false ->
  Spec.direction cfg distFromTop distFromBottom = Some d ->
  (distFromTop <? T)%num && up = false ->
  (distFromBottom <? T)%num && down = false ->
  getScrollTargetOffset cfg s distFromTop distFromBottom offset up down
  = Spec.target cfg d distFromTop distFromBottom offset.
Proof.
  unfold getScrollTargetOffset, Spec.direction, Spec.target,
    Spec.delta, Spec.effectiveSpeed, speedPct, speed.
  fold T. intros -> Hd Hu Hb. rewrite Hu, Hb.
  destruct (distFromTop <? T)%num.
  - injection Hd as <-. reflexivity.
  - destruct (distFromBottom <? T)%num; [|discriminate Hd].
    injection Hd as <-. reflexivity.
Qed.

End TargetFacts.

(** The instance of the specification: threshold 50, speed 100,
    [distFromTop = 10], [ScrollOffset = 200], not scrolled up: target 120. *)
Lemma target_formula_witness :
  same
    (getScrollTargetOffset cfg0 js0 (Fin 10) (Fin 350) (Fin 200) false false)
    (Fin 120).
Proof.
  rewrite (target_formula cfg0 js0 (Fin 10) (Fin 350) (Fin 200) false false
             Spec.Up);
    reflexivity.
Defined.

(** C1 as it was stated asks only for the boundary flag of the chosen
    direction to be false.  With both distances below the threshold and the
    list scrolled to its end, the direction is up and [isScrolledUp] is
    false, yet the guard of lines 138-143 returns -1, not 120. *)
Lemma target_formula_needs_both_flags :
  inProgressJS js0 = false
  /\ Spec.direction cfg0 (Fin 10) (Fin 10) = Some Spec.Up
  /\ Spec.boundary Spec.Up false true = false
  /\ getScrollTargetOffset cfg0 js0 (Fin 10) (Fin 10) (Fin 200) false true
     = Fin (-1)
  /\ same (Spec.target cfg0 Spec.Up (Fin 10) (Fin 10) (Fin 200))
       (Fin 120)
  /\ ~ same
         (getScrollTargetOffset cfg0 js0 (Fin 10) (Fin 10) (Fin 200)
            false true)
         (Spec.target cfg0 Spec.Up (Fin 10) (Fin 10) (Fin 200)).
Proof.
  repeat split; try reflexivity.
  vm_compute. intros H. discriminate H.
Qed.

Lemma sentinel_cases_witness :
  getScrollTargetOffset cfg0 js0 (Fin 10) (Fin 350) (Fin 0) true false
  = Fin (-1).
Proof.
  apply (sentinel_cases cfg0 js0 (Fin 10) (Fin 350) (Fin 0) true false).
  right. right. left. split; reflexivity.
Defined.


(** ** The sign of the target *)

Lemma speed_finite (cfg : Config) (v : Q) :
  autoscrollSpeed cfg = Fin v -> exists v', speed cfg = Fin v'.
Proof.
  intros E. unfold speed. rewrite E. destruct (isAndroid cfg).
  - exists (v / 10). reflexivity.
  - exists v. reflexivity.
Qed.

Lemma speed_nonneg (cfg : Config) (v : Q) :
  autoscrollSpeed cfg = Fin v -> 0 <= v ->
  exists v', speed cfg = Fin v' /\ 0 <= v'.
Proof.
  intros E Hv. unfold speed. rewrite E. destruct (isAndroid cfg).
  - exists (v / 10). split; [reflexivity|].
    apply Qle_shift_div_l; lra.
  - exists v. split; [reflexivity | exact Hv].
Qed.

(** The sentinel is returned and the test [targetOffset >= 0] fails. *)
Ltac sentinel := split; [left|]; reflexivity.

Lemma max0_ge_num (x : num) :
  x <> NaN -> (JS.max (Fin 0) x >=? Fin 0)%num = true.
Proof.
  destruct x as [a | | |]; intros H; try reflexivity.
  - apply max0_ge.
  - contradiction H; reflexivity.
Qed.

Lemma nonneg_cases (x : num) :
  (Fin 0 <=? x)%num = true -> (exists a, x = Fin a /\ 0 <= a) \/ x = PInf.
Proof.
  destruct x as [a | | |]; cbn; intros H; try discriminate H.
  - left. exists a. split; [reflexivity|]. apply Qle_bool_iff, H.
  - right. reflexivity.
Qed.

(** C10.  With a scroll speed that is not negative, on distances and an
    offset that are at least 0, [getScrollTargetOffset] returns -1 or a
    number that is at least 0; and the loop's test [targetOffset >= 0]
    holds exactly when the guard of lines 135-143 let a target through, so
    it tells the sentinel from every target.  A target going up is
    [Math.max(0, ...)], hence at least 0. *)
Theorem target_sign (cfg : Config) (s : JSState) (dT dB q : num) (v : Q)
    (up down : bool) :
  autoscrollSpeed cfg = Fin v -> 0 <= v ->
  (Fin 0 <=? dT)%num = true -> (Fin 0 <=? dB)%num = true ->
  (Fin 0 <=? q)%num = true ->
  let r := getScrollTargetOffset cfg s dT dB q up down in
  (r = Fin (-1) \/ (r >=? Fin 0)%num = true)
  /\ (r >=? Fin 0)%num = produces_target cfg s dT dB up down.
Proof.
  intros E Hv HdT HdB Hq.
  destruct (speed_nonneg cfg v E Hv) as (v' & Ev & Hv').
  unfold getScrollTargetOffset, produces_target, speedPct. rewrite Ev.
  destruct (inProgressJS s); [sentinel|].
  destruct (dT <? autoscrollThreshold cfg)%num eqn:Eu.
  - destruct up; [sentinel|].
    destruct ((dB <? autoscrollThreshold cfg)%num && down); [sentinel|].
    cbn [orb andb negb].
    rewrite max0_ge_num; [split; [right|]; reflexivity|].
    destruct (nonneg_cases dT HdT) as [(a & -> & Ha) | ->];
      [|destruct (autoscrollThreshold cfg); discriminate Eu].
    destruct (nonneg_cases q Hq) as [(b & -> & Hb) | ->];
      destruct (autoscrollThreshold cfg) as [t | | |]; try discriminate Eu;
      cbn [JS.ltb] in Eu; tests_to_props;
      try rewrite div_Fin by lra; cbn; discriminate.
  - destruct (dB <? autoscrollThreshold cfg)%num eqn:Ed; [|sentinel].
    destruct down; [sentinel|].
    cbn [orb andb negb].
    assert (G : ((q + (Fin 1 - dB / autoscrollThreshold cfg) * Fin v')
                 >=? Fin 0)%num = true).
    { destruct (nonneg_cases dB HdB) as [(a & -> & Ha) | ->];
        [|destruct (autoscrollThreshold cfg); discriminate Ed].
      destruct (autoscrollThreshold cfg) as [t | | |]; try discriminate Ed;
        cbn [JS.ltb] in Ed; tests_to_props.
      - destruct (ramp_pos a t Ha Ed) as [R1 R2].
        rewrite div_Fin by lra.
        assert (0 <= (1 - a / t) * v') by (apply Qmult_le_0_compat; lra).
        destruct (nonneg_cases q Hq) as [(b & -> & Hb) | ->];
          [|reflexivity].
        apply geb_Fin. unfold Qminus in *. lra.
      - destruct (nonneg_cases q Hq) as [(b & -> & Hb) | ->];
          [|reflexivity].
        apply geb_Fin.
        assert (0 <= (1 + - 0) * v') by (apply Qmult_le_0_compat; lra).
        lra. }
    rewrite G. split; [right|]; reflexivity.
Qed.

Lemma target_sign_witness :
  (getScrollTargetOffset cfg0 js0 (Fin 10) (Fin 350) (Fin 200) false false
   >=? Fin 0)%num
  = produces_target cfg0 js0 (Fin 10) (Fin 350) false false.
Proof.
  apply (target_sign cfg0 js0 (Fin 10) (Fin 350) (Fin 200) 100 false false);
    try reflexivity.
  unfold Qle; simpl; lia.
Defined.

(** The speed must not be negative for this: going down with speed -1000
    from offset 0, the target is -1000. *)
Lemma target_sign_negative_speed :
  same
    (getScrollTargetOffset
       {| autoscrollThreshold := Fin 50;
          autoscrollSpeed := Fin (-1000);
          isAndroid := false;
          SCROLL_POSITION_TOLERANCE := Fin 2;
          GestureState_ACTIVE := Fin 4 |}
       js0 (Fin 350) (Fin 0) (Fin 0) false false)
    (Fin (-1000)).
Proof. reflexivity. Qed.

(** ** The ramp: nearer the edge, a larger step *)

Lemma magnitude_up (q p1 p2 : Q) :
  (0 <= p2 /\ p2 <= p1) \/ (p1 <= p2 /\ p2 <= 0) ->
  (magnitude (Fin q) (JS.max (Fin 0) (Fin q - Fin p1)%num)
   >=? magnitude (Fin q) (JS.max (Fin 0) (Fin q - Fin p2)%num))%num = true.
Proof.
  intros H. unfold magnitude. cbn [JS.sub JS.add JS.neg]. rewrite !max_Fin.
  cbn [JS.sub JS.add JS.neg JS.abs]. apply geb_Fin.
  destruct (Qle_bool 0 (q + - p1)) eqn:E1, (Qle_bool 0 (q + - p2)) eqn:E2;
    tests_to_props; repeat (apply Qabs_case; intro); lra.
Qed.

Lemma magnitude_down (q p1 p2 : Q) :
  (0 <= p2 /\ p2 <= p1) \/ (p1 <= p2 /\ p2 <= 0) ->
  (magnitude (Fin q) (Fin q + Fin p1)%num
   >=? magnitude (Fin q) (Fin q + Fin p2)%num)%num = true.
Proof.
  intros H. unfold magnitude. cbn [JS.sub JS.add JS.neg JS.abs].
  apply geb_Fin. repeat (apply Qabs_case; intro); lra.
Qed.

Lemma magnitude_refl (q r : Q) :
  (magnitude (Fin q) (Fin r) >=? magnitude (Fin q) (Fin r))%num = true.
Proof. apply geb_Fin, Qle_refl. Qed.

(** C8.  With the threshold, the speed, the platform, the offset, the
    boundary flags and the other distance fixed, the step
    [|ScrollOffset - target|] is antitone in the distance from the edge:
    for [0 <= d1 <= d2 < EdgeThreshold] the step at [d1] is at least the
    step at [d2], going up (the top distance varies; the target is clamped at
    0) and going down (the bottom distance varies, the top distance being
    outside the threshold). *)
Theorem delta_antitone (cfg : Config) (s : JSState) (t v q d1 d2 : Q)
    (up down : bool) :
  autoscrollThreshold cfg = Fin t -> autoscrollSpeed cfg = Fin v ->
  0 <= d1 -> d1 <= d2 -> d2 < t ->
  (forall other : num,
      (magnitude (Fin q)
         (getScrollTargetOffset cfg s (Fin d1) other (Fin q) up down)
       >=? magnitude (Fin q)
             (getScrollTargetOffset cfg s (Fin d2) other (Fin q) up down))%num
      = true)
  /\ (forall other : num,
        (other <? Fin t)%num = false ->
        (magnitude (Fin q)
           (getScrollTargetOffset cfg s other (Fin d1) (Fin q) up down)
         >=? magnitude (Fin q)
               (getScrollTargetOffset cfg s other (Fin d2) (Fin q) up down))%num
        = true).
Proof.
  intros ET EV H0 H12 H2t.
  destruct (speed_finite cfg v EV) as (v' & Ev).
  assert (Ht : 0 < t) by lra.
  assert (L1 : Qltb d1 t = true) by (apply Qltb_lt; lra).
  assert (L2 : Qltb d2 t = true) by (apply Qltb_lt; lra).
  destruct (ramp_pos d2 t) as [R2 _]; [lra | lra |].
  pose proof (ramp_antitone d1 d2 t Ht H12) as R12.
  pose proof (delta_order (1 - d1 / t) (1 - d2 / t) v'
                (Qlt_le_weak _ _ R2) R12) as D.
  unfold getScrollTargetOffset, speedPct. rewrite ET, Ev.
  destruct (inProgressJS s).
  { split; intros; apply magnitude_refl. }
  split.
  - intros other. cbn [JS.ltb]. rewrite L1, L2.
    destruct up; [apply magnitude_refl|].
    destruct ((other <? Fin t)%num && down); [apply magnitude_refl|].
    cbn [orb andb negb]. rewrite !div_Fin by lra. cbn [JS.mul].
    apply (magnitude_up q ((1 + - (d1 / t)) * v') ((1 + - (d2 / t)) * v')).
    exact D.
  - intros other Ho. rewrite Ho. cbn [JS.ltb]. rewrite L1, L2.
    destruct down; [apply magnitude_refl|].
    cbn [orb andb negb]. rewrite !div_Fin by lra. cbn [JS.mul].
    apply (magnitude_down q ((1 + - (d1 / t)) * v') ((1 + - (d2 / t)) * v')).
    exact D.
Qed.

(** From offset 200, 10 from the top the step is 80, 30 from it 40. *)
Lemma delta_antitone_witness :
  (magnitude (Fin 200)
     (getScrollTargetOffset cfg0 js0 (Fin 10) (Fin 350) (Fin 200) false false)
   >=? magnitude (Fin 200)
         (getScrollTargetOffset cfg0 js0 (Fin 30) (Fin 350) (Fin 200)
            false false))%num
  = true.
Proof.
  apply (delta_antitone cfg0 js0 50 100 200 10 30 false false);
    try reflexivity; unfold Qle; simpl; lia.
Defined.

(** ** The two ends of the ramp *)

(** C9.  For a threshold [t > 0]: at [distFromEdge = t] the speed
    percentage is 0, the step is 0, and [getScrollTargetOffset] returns the
    sentinel for that edge, so nothing moves; at [distFromEdge = 0] the speed
    percentage is 1, which no distance from 0 on exceeds, the step is the
    whole effective speed (the largest step, the speed not being negative),
    and the target is that far from the offset, clamped at 0 going up. *)
Theorem ramp_ends (cfg : Config) (s : JSState) (t : Q) :
  autoscrollThreshold cfg = Fin t -> 0 < t ->
  (same (speedPct cfg (Fin t)) (Fin 0)
   /\ (forall v, speed cfg = Fin v ->
                 same (speedPct cfg (Fin t) * speed cfg)%num (Fin 0))
   /\ (forall other offset up down,
          (other <? Fin t)%num = false ->
          getScrollTargetOffset cfg s (Fin t) other offset up down = Fin (-1)
          /\ getScrollTargetOffset cfg s other (Fin t) offset up down
             = Fin (-1)))
  /\ (same (speedPct cfg (Fin 0)) (Fin 1)
      /\ (forall d, 0 <= d -> (speedPct cfg (Fin d) <=? Fin 1)%num = true)
      /\ (forall v, speed cfg = Fin v ->
            same (speedPct cfg (Fin 0) * speed cfg)%num (speed cfg)
            /\ forall d, 0 <= v -> 0 <= d ->
                 (speedPct cfg (Fin d) * speed cfg <=? speed cfg)%num = true)
      /\ (forall v q other down,
            speed cfg = Fin v -> inProgressJS s = false ->
            (other <? Fin t)%num && down = false ->
            same
              (getScrollTargetOffset cfg s (Fin 0) other (Fin q) false down)
              (JS.max (Fin 0) (Fin (q - v)))
            /\ same
                 (getScrollTargetOffset cfg s (Fin t) (Fin 0) (Fin q)
                    false false)
                 (Fin (q + v)))).
Proof.
  intros ET Ht.
  assert (Et0 : ~ t == 0) by lra.
  assert (Ett : t / t == 1) by (field; exact Et0).
  assert (E0t : 0 / t == 0) by (field; exact Et0).
  assert (Ltt : Qltb t t = false) by (apply Qltb_ge; lra).
  assert (L0t : Qltb 0 t = true) by (apply Qltb_lt; exact Ht).
  unfold speedPct. rewrite ET. rewrite !div_Fin by exact Et0.
  cbn [JS.sub JS.add JS.neg].
  split; [split; [|split] | split; [|split; [|split]]].
  - (* the percentage at the threshold *)
    simpl. lra.
  - intros v ->. simpl. rewrite Ett. ring.
  - intros other offset up down Ho.
    unfold getScrollTargetOffset. rewrite ET, Ho. cbn [JS.ltb]. rewrite Ltt.
    destruct (inProgressJS s); split; reflexivity.
  - (* the percentage at the edge *)
    simpl. lra.
  - intros d Hd. rewrite div_Fin by exact Et0. apply leb_Fin.
    assert (0 <= d / t) by (apply Qle_shift_div_l; lra). lra.
  - intros v Ev. rewrite Ev. split.
    + simpl. rewrite E0t. ring.
    + intros d Hv Hd. rewrite div_Fin by exact Et0.
      cbn [JS.sub JS.add JS.neg JS.mul]. apply leb_Fin.
      assert (0 <= d / t) by (apply Qle_shift_div_l; lra).
      assert (0 <= (d / t) * v) by (apply Qmult_le_0_compat; lra).
      setoid_replace ((1 + - (d / t)) * v) with (v - (d / t) * v) by ring.
      lra.
  - intros v q other down Ev Hs Ho.
    unfold getScrollTargetOffset, speedPct. rewrite ET, Ev, Hs, Ho.
    cbn [JS.ltb]. rewrite L0t, Ltt. cbn [orb andb negb].
    rewrite !div_Fin by exact Et0. cbn [JS.sub JS.add JS.neg JS.mul].
    split.
    + apply max0_same. rewrite E0t. ring.
    + simpl. rewrite E0t. ring.
Qed.

Lemma ramp_ends_witness :
  same (speedPct cfg0 (Fin 50)) (Fin 0)
  /\ same (speedPct cfg0 (Fin 0)) (Fin 1).
Proof.
  split; apply (ramp_ends cfg0 js0 50); reflexivity.
Defined.

(** A threshold of 0 has no ramp: the quotient is 0 / 0. *)
Lemma ramp_without_threshold (cfg : Config) :
  autoscrollThreshold cfg = Fin 0 -> speedPct cfg (Fin 0) = NaN.
Proof. intros E. unfold speedPct. rewrite E. reflexivity. Qed.

(** ** The loop *)

Lemma getScrollTargetOffset_in_flight (cfg : Config) (s : JSState)
    (dT dB o : num) (up down : bool) :
  inProgressJS s = true ->
  getScrollTargetOffset cfg s dT dB o up down = Fin (-1).
Proof. intros H. unfold getScrollTargetOffset. rewrite H. reflexivity. Qed.

(** What [scrollToAsync] leaves behind. *)
Lemma scrollToAsync_effect (offset : num) (w : World) :
  let w' := fst (scrollToAsync offset w) in
  inProgressJS (js w') = true
  /\ resolveAutoscroll (js w') = Some (nextPromise (js w))
  /\ awaiting (js w') = awaiting (js w)
  /\ autoscrollLooping (js w') = autoscrollLooping (js w)
  /\ isDraggingCellJS (js w') = isDraggingCellJS (js w)
  /\ flatlistRef (js w') = flatlistRef (js w)
  /\ targetScrollOffset (anim w') = offset
  /\ isAutoScrollInProgressNative (anim w') = Fin 1
  /\ match snd (scrollToAsync offset w) with
     | Pending p => p = nextPromise (js w)
     | Rejected => scrolled (js w') = scrolled (js w)
     end.
Proof.
  unfold scrollToAsync. cbn.
  destruct (flatlistRef (js w)) as [ | [ | ] | | ] eqn:R; cbn;
    repeat split; congruence.
Qed.

(** The defensive guard: with the JS flag set an iteration leaves the
    loop. *)
Lemma loop_in_flight (cfg : Config) (fuel : nat) (cur : Params) (w : World) :
  inProgressJS (js w) = true -> loop cfg (S fuel) cur w = leaves cur w.
Proof.
  intros H. destruct cur as [l|]; [|reflexivity]. cbn [loop leaves].
  rewrite getScrollTargetOffset_in_flight by exact H. reflexivity.
Qed.

Lemma loop_not_dragging (cfg : Config) (fuel : nat) (cur : Params)
    (w : World) :
  isDraggingCellJS (js w) = false -> loop cfg (S fuel) cur w = leaves cur w.
Proof.
  intros H. destruct cur as [l|]; [|reflexivity]. cbn [loop leaves].
  rewrite H, andb_false_r. reflexivity.
Qed.

(** Two units of fuel are enough for a run from any state: a rejected
    promise leaves the JS flag set, and the next iteration leaves the
    loop. *)
Lemma loop_runs (cfg : Config) (fuel : nat) (cur : Params) (w : World) :
  loop_outcome cur w (loop cfg (S (S fuel)) cur w).
Proof.
  destruct cur as [l|].
  - cbn [loop].
    match goal with |- context [if ?c then _ else _] => destruct c eqn:C end.
    + pose proof (scrollToAsync_effect
                    (getScrollTargetOffset cfg (js w) (elem l 0) (elem l 1)
                       (elem l 2) (JS.truthy (elem l 3))
                       (JS.truthy (elem l 4))) w) as E.
      cbv zeta in E.
      destruct (scrollToAsync _ w) as [w' [p|]]; cbn [fst snd] in E;
        destruct E as (E1 & E2 & E3 & E4 & E5 & E6 & E7 & E8 & E9).
      * assert (D : isDraggingCellJS (js w) = true).
        { rewrite !andb_true_iff in C. tauto. }
        apply (outcome_suspended (Arr l) w _ p); cbn; try congruence.
      * rewrite getScrollTargetOffset_in_flight by exact E1. cbn.
        apply (outcome_left (Arr l) w w'); try assumption.
        intros D. rewrite D, andb_false_r in C. discriminate C.
    + apply (outcome_left (Arr l) w w); auto.
  - apply (outcome_left NotIterable w w); auto.
Qed.

(** The loop always ends, and more fuel changes nothing. *)
Lemma loop_terminates (cfg : Config) (fuel : nat) (cur : Params)
    (w : World) :
  loop cfg (S (S fuel)) cur w <> OutOfFuel
  /\ loop cfg (S (S fuel)) cur w = loop cfg loop_fuel cur w.
Proof.
  split.
  - destruct (loop_runs cfg fuel cur w); [destruct cur|]; discriminate.
  - unfold loop_fuel. destruct cur as [l|]; [|reflexivity]. cbn [loop].
    match goal with |- context [if ?c then _ else _] => destruct c end;
      [|reflexivity].
    pose proof (scrollToAsync_effect
                  (getScrollTargetOffset cfg (js w) (elem l 0) (elem l 1)
                     (elem l 2) (JS.truthy (elem l 3))
                     (JS.truthy (elem l 4))) w) as E.
    cbv zeta in E.
    destruct (scrollToAsync _ w) as [w' [p|]]; [reflexivity|].
    cbn [fst] in E. destruct E as (E1 & _).
    rewrite !getScrollTargetOffset_in_flight by exact E1. reflexivity.
Qed.

(** ** The guard *)

Lemma finally_total (cfg : Config) (cur : Params) (w : World) :
  exists w', finally (loop cfg loop_fuel cur w) = Some w'.
Proof.
  pose proof (loop_runs cfg 0 cur w) as H.
  change (S (S 0)) with loop_fuel in H.
  destruct H as [w' _ _ _ _ | w' p _ _ _ _ _].
  - destruct cur; eexists; reflexivity.
  - eexists; reflexivity.
Qed.

(** Starting the loop with the guard held and no loop alive. *)
Lemma loop_single_flight (cfg : Config) (cur : Params) (w : World) :
  awaiting (js w) = [] -> autoscrollLooping (js w) = true ->
  exists w', finally (loop cfg loop_fuel cur w) = Some w'
             /\ single_flight (js w').
Proof.
  intros A L.
  pose proof (loop_runs cfg 0 cur w) as H.
  change (S (S 0)) with loop_fuel in H.
  destruct H as [w' E1 E2 _ _ | w' p E1 E2 E3 _ _].
  - exists (on_js (set_autoscrollLooping false) w'). split.
    + destruct cur; reflexivity.
    + unfold single_flight. cbn. rewrite E1, A. reflexivity.
  - exists w'. split; [reflexivity|].
    unfold single_flight. rewrite E1, A. split; congruence.
Qed.

Lemma autoscroll_single_flight (cfg : Config) (p : Params) (w : World) :
  single_flight (js w) ->
  exists w', autoscroll cfg p w = Some w' /\ single_flight (js w').
Proof.
  intros I. unfold autoscroll.
  destruct (autoscrollLooping (js w)) eqn:L.
  - exists w. split; [reflexivity | exact I].
  - apply loop_single_flight; [|reflexivity].
    unfold single_flight in I. cbn.
    destruct (awaiting (js w)) as [|[q c] [|k ks]];
      [reflexivity | | contradiction].
    destruct I as [I _]. congruence.
Qed.

(** Resolving the promise the only suspended loop waits for. *)
Lemma resolve_single (cfg : Config) (p : nat) (c v : Params) (w : World) :
  awaiting (js w) = [(p, c)] ->
  resolve cfg p v w
  = finally (loop cfg loop_fuel v (on_js (set_awaiting []) w)).
Proof.
  intros A. unfold resolve. rewrite A. cbn [filter].
  unfold awaits. cbn [fst]. rewrite Nat.eqb_refl. cbn [negb resume].
  destruct (finally _); reflexivity.
Qed.

Lemma resolve_idle (cfg : Config) (p : nat) (v : Params) (w : World) :
  awaiting (js w) = [] ->
  resolve cfg p v w = Some (on_js (set_awaiting []) w).
Proof. intros A. unfold resolve. rewrite A. reflexivity. Qed.

Lemma onAutoscrollComplete_single_flight (cfg : Config) (v : Params)
    (w : World) :
  single_flight (js w) ->
  exists w', onAutoscrollComplete cfg v w = Some w' /\ single_flight (js w').
Proof.
  intros I. unfold onAutoscrollComplete.
  change (resolveAutoscroll (js (on_js (set_inProgressJS false) w)))
    with (resolveAutoscroll (js w)).
  destruct (resolveAutoscroll (js w)) as [p|] eqn:R.
  - unfold single_flight in I.
    destruct (awaiting (js w)) as [|[q c] [|k ks]] eqn:A; [ | | contradiction].
    + rewrite resolve_idle by exact A. eexists. split; [reflexivity|].
      unfold single_flight. cbn. exact I.
    + destruct I as [L R']. assert (q = p) by congruence. subst q.
      rewrite (resolve_single cfg p c) by exact A.
      apply loop_single_flight; [reflexivity | exact L].
  - eexists. split; [reflexivity|]. exact I.
Qed.

Lemma exec_single_flight (cfg : Config) (e : Event) (w : World) :
  single_flight (js w) ->
  exists w', exec cfg e w = Some w' /\ single_flight (js w').
Proof.
  intros I. destruct e as [i | v | | | p | p]; cbn [exec].
  - eexists. split; [reflexivity | exact I].
  - eexists. split; [reflexivity | exact I].
  - destruct (checkAutoscroll cfg (anim w)).
    + apply autoscroll_single_flight, I.
    + eexists. split; [reflexivity | exact I].
  - destruct (onScrollNode cfg (anim w)) as [a' [params|]].
    + apply onAutoscrollComplete_single_flight. exact I.
    + eexists. split; [reflexivity | exact I].
  - apply autoscroll_single_flight, I.
  - apply onAutoscrollComplete_single_flight, I.
Qed.

Lemma run_single_flight (cfg : Config) (es : list Event) :
  forall w, single_flight (js w) ->
  exists w', run cfg es w = Some w' /\ single_flight (js w').
Proof.
  induction es as [|e es IH]; intros w I.
  - exists w. split; [reflexivity | exact I].
  - destruct (exec_single_flight cfg e w I) as (w1 & E & I1).
    cbn [run]. rewrite E. apply IH, I1.
Qed.

(** C5.  Called while [autoscrollLooping] is held, [autoscroll] returns at
    once and changes nothing.  After any sequence of events of the hook,
    calls of [autoscroll] among them, at most one loop is alive, and the
    guard is held exactly while one is: it is released as soon as the loop
    is left.  That includes the exception path: a loop that throws goes
    through [finally], which frees the guard. *)
Theorem loop_guard (cfg : Config) :
  (forall params w,
      autoscrollLooping (js w) = true -> autoscroll cfg params w = Some w)
  /\ (forall ref a es,
        exists w,
          run cfg es (initial ref a) = Some w
          /\ (length (awaiting (js w)) <= 1)%nat
          /\ (autoscrollLooping (js w) = true <-> awaiting (js w) <> []))
  /\ (forall w fuel,
        loop cfg (S fuel) NotIterable w = Threw w
        /\ finally (Threw w) = Some (on_js (set_autoscrollLooping false) w)
        /\ (autoscrollLooping (js w) = false ->
            autoscroll cfg NotIterable w
            = Some (on_js (set_autoscrollLooping false) w))).
Proof.
  split; [|split].
  - intros params w L. unfold autoscroll. rewrite L. reflexivity.
  - intros ref a es.
    destruct (run_single_flight cfg es (initial ref a)) as (w & R & I);
      [reflexivity|].
    exists w. split; [exact R|]. unfold single_flight in I.
    destruct (awaiting (js w)) as [|[q c] [|k ks]]; [ | | contradiction].
    + cbn. split; [lia|]. rewrite I. split; [discriminate | congruence].
    + cbn. destruct I as [L _]. split; [lia|]. rewrite L.
      split; [discriminate | reflexivity].
  - intros w fuel. split; [reflexivity | split; [reflexivity|]].
    intros L. unfold autoscroll. rewrite L. reflexivity.
Qed.

(** ** When the drag has ended *)

(** With no drag going on, nothing the hook does scrolls the list. *)
Lemma finally_not_dragging (cfg : Config) (cur : Params) (w : World) :
  isDraggingCellJS (js w) = false ->
  finally (loop cfg loop_fuel cur w)
  = Some (on_js (set_autoscrollLooping false) w).
Proof.
  intros D. unfold loop_fuel. rewrite loop_not_dragging by exact D.
  destruct cur; reflexivity.
Qed.

Lemma resume_quiet (cfg : Config) (v : Params) (ks : list (nat * Params)) :
  forall w, isDraggingCellJS (js w) = false ->
  exists w', resume cfg ks v w = Some w' /\ quiet w w'.
Proof.
  induction ks as [|k ks IH]; intros w D.
  - exists w. repeat split; assumption.
  - cbn [resume]. rewrite finally_not_dragging by exact D.
    destruct (IH (on_js (set_autoscrollLooping false) w) D)
      as (w' & R & D' & S').
    exists w'. repeat split; assumption.
Qed.

Lemma autoscroll_quiet (cfg : Config) (p : Params) (w : World) :
  isDraggingCellJS (js w) = false ->
  exists w', autoscroll cfg p w = Some w' /\ quiet w w'.
Proof.
  intros D. unfold autoscroll. destruct (autoscrollLooping (js w)).
  - exists w. repeat split; assumption.
  - rewrite finally_not_dragging by exact D.
    eexists. split; [reflexivity|]. split; [exact D | reflexivity].
Qed.

Lemma onAutoscrollComplete_quiet (cfg : Config) (v : Params) (w : World) :
  isDraggingCellJS (js w) = false ->
  exists w', onAutoscrollComplete cfg v w = Some w' /\ quiet w w'.
Proof.
  intros D. unfold onAutoscrollComplete.
  change (resolveAutoscroll (js (on_js (set_inProgressJS false) w)))
    with (resolveAutoscroll (js w)).
  destruct (resolveAutoscroll (js w)) as [p|].
  - unfold resolve.
    match goal with |- context [resume cfg ?ks v ?w0] =>
      destruct (resume_quiet cfg v ks w0 D) as (w' & R & D' & S')
    end.
    exists w'. split; [exact R|]. split; [exact D' | exact S'].
  - eexists. split; [reflexivity|]. split; [exact D | reflexivity].
Qed.

Lemma exec_quiet (cfg : Config) (e : Event) (w : World) :
  isDraggingCellJS (js w) = false -> drag_stays_ended e ->
  exists w', exec cfg e w = Some w' /\ quiet w w'.
Proof.
  intros D Q. destruct e as [i | v | | | p | p]; cbn [exec].
  - eexists. split; [reflexivity|]. split; [exact D | reflexivity].
  - eexists. split; [reflexivity|]. split; [exact Q | reflexivity].
  - destruct (checkAutoscroll cfg (anim w)).
    + apply autoscroll_quiet, D.
    + exists w. repeat split; assumption.
  - destruct (onScrollNode cfg (anim w)) as [a' [params|]].
    + apply (onAutoscrollComplete_quiet cfg (Arr params)
               (on_anim (fun _ => a') w) D).
    + eexists. split; [reflexivity|]. split; [exact D | reflexivity].
  - apply autoscroll_quiet, D.
  - apply onAutoscrollComplete_quiet, D.
Qed.

Lemma run_quiet (cfg : Config) (es : list Event) :
  forall w, isDraggingCellJS (js w) = false -> Forall drag_stays_ended es ->
  exists w', run cfg es w = Some w' /\ quiet w w'.
Proof.
  induction es as [|e es IH]; intros w D F.
  - exists w. repeat split; assumption.
  - inversion F as [|e' es' Q F']; subst.
    destruct (exec_quiet cfg e w D Q) as (w1 & E & D1 & S1).
    destruct (IH w1 D1 F') as (w2 & R & D2 & S2).
    exists w2. cbn [run]. rewrite E. split; [exact R|].
    split; [exact D2 | congruence].
Qed.

(** C6.  Once [isDraggingCellJS] is false the continuation check fails:
    an iteration leaves the loop, the state untouched.  So when the drag
    ends while the loop waits for a scroll to complete, the completion
    resumes it, it exits with the guard freed and no further call of
    [scrollToOffset]; and as long as no drag starts, whatever happens to the
    hook, no scroll command is issued any more. *)
Theorem drag_end_stops_loop (cfg : Config) :
  (forall w fuel cur,
      isDraggingCellJS (js w) = false ->
      loop cfg (S fuel) cur w = leaves cur w)
  /\ (forall w p cur v,
        isDraggingCellJS (js w) = false ->
        awaiting (js w) = [(p, cur)] ->
        resolveAutoscroll (js w) = Some p ->
        exists w',
          onAutoscrollComplete cfg v w = Some w'
          /\ scrolled (js w') = scrolled (js w)
          /\ awaiting (js w') = []
          /\ autoscrollLooping (js w') = false
          /\ anim w' = anim w)
  /\ (forall w es,
        isDraggingCellJS (js w) = false ->
        Forall drag_stays_ended es ->
        exists w',
          run cfg es w = Some w' /\ scrolled (js w') = scrolled (js w)).
Proof.
  split; [|split].
  - intros w fuel cur D. apply loop_not_dragging, D.
  - intros w p cur v D A R. unfold onAutoscrollComplete.
    change (resolveAutoscroll (js (on_js (set_inProgressJS false) w)))
      with (resolveAutoscroll (js w)).
    rewrite R, (resolve_single cfg p cur) by exact A.
    rewrite finally_not_dragging by exact D.
    eexists. split; [reflexivity|]. repeat split.
  - intros w es D F.
    destruct (run_quiet cfg es w D F) as (w' & R & _ & S').
    exists w'. split; assumption.
Qed.

(** C2.  [onScrollNode] fires exactly when the native in-flight flag is set
    and the target is within the tolerance of the offset, or the list is
    scrolled up with [target <= offset], or scrolled down with
    [target >= offset].  When it fires it sets the native flag
    to 0 and calls [onAutoscrollComplete] with the snapshot of the geometry;
    that clears the JS flag and resolves the promise the suspended loop
    waits for, so the loop goes on with the snapshot as its parameters. *)
Theorem completion_detector (cfg : Config) (a : Animated) :
  let fires :=
    Spec.completes
      (isAutoScrollInProgressNative a) (targetScrollOffset a)
      (scrollOffset a) (SCROLL_POSITION_TOLERANCE cfg)
      (JS.truthy (isScrolledUp cfg a)) (JS.truthy (isScrolledDown cfg a)) in
  let snapshot :=
    [distToTopEdge a; distToBottomEdge a; scrollOffset a;
     isScrolledUp cfg a; isScrolledDown cfg a] in
  onScrollNode cfg a
  = (if fires
     then (set_isAutoScrollInProgressNative (Fin 0) a, Some snapshot)
     else (a, None))
  /\ (fires = true ->
      isAutoScrollInProgressNative (fst (onScrollNode cfg a)) = Fin 0
      /\ forall s p cur,
          awaiting s = [(p, cur)] ->
          resolveAutoscroll s = Some p ->
          exec cfg EvalOnScrollNode {| anim := a; js := s |}
          = finally
              (loop cfg loop_fuel (Arr snapshot)
                 {| anim := set_isAutoScrollInProgressNative (Fin 0) a;
                    js := set_awaiting [] (set_inProgressJS false s) |})).
Proof.
  intros fires snapshot. pose proof (onScrollNode_fires cfg a) as N.
  fold fires in N. fold snapshot in N. split; [exact N|].
  intros F. rewrite F in N. split.
  - rewrite N. reflexivity.
  - intros s p cur A R. cbn [exec anim]. rewrite N.
    unfold onAutoscrollComplete.
    change (resolveAutoscroll _) with (resolveAutoscroll s).
    rewrite R. rewrite (resolve_single cfg p cur) by exact A. reflexivity.
Qed.

Lemma loop_guard_witness :
  autoscroll cfg0 (Arr (autoscrollParams cfg0 frame0))
    {| anim := frame1; js := js1 true |}
  = Some {| anim := frame1; js := js1 true |}.
Proof.
  apply (loop_guard cfg0). reflexivity.
Defined.

Lemma drag_end_stops_loop_witness :
  exists w',
    onAutoscrollComplete cfg0 (Arr (autoscrollParams cfg0 frame1))
      {| anim := frame1; js := js1 false |}
    = Some w'
    /\ scrolled (js w') = [Fin 120]
    /\ awaiting (js w') = []
    /\ autoscrollLooping (js w') = false
    /\ anim w' = frame1.
Proof.
  apply (proj1 (proj2 (drag_end_stops_loop cfg0))
           {| anim := frame1; js := js1 false |}
           O (Arr (autoscrollParams cfg0 frame0)));
    reflexivity.
Defined.

Lemma completion_detector_witness :
  exec cfg0 EvalOnScrollNode {| anim := frame1; js := js1 true |}
  = finally
      (loop cfg0 loop_fuel
         (Arr [distToTopEdge frame1; distToBottomEdge frame1;
               scrollOffset frame1;
               isScrolledUp cfg0 frame1; isScrolledDown cfg0 frame1])
         {| anim := set_isAutoScrollInProgressNative (Fin 0) frame1;
            js := set_awaiting [] (set_inProgressJS false (js1 true)) |}).
Proof.
  apply (proj2 (proj2 (completion_detector cfg0 frame1) eq_refl)
           (js1 true) O (Arr (autoscrollParams cfg0 frame0)));
    reflexivity.
Defined.

(** ** The scenarios of the specification *)

(** The drag held at the top edge of a list scrolled to 200: one scroll
    command, to 120, and the loop waits for it. *)
Example scenario_scroll_to_120 :
  exists w,
    run cfg0 [DraggingChanged (Fin 1); EvalCheckAutoscroll]
      (initial RefScrollable frame0) = Some w
    /\ Forall2 same (scrolled (js w)) [Fin 120]
    /\ same (targetScrollOffset (anim w)) (Fin 120)
    /\ isAutoScrollInProgressNative (anim w) = Fin 1
    /\ length (awaiting (js w)) = 1%nat.
Proof.
  eexists. split; [reflexivity|].
  repeat split. constructor; [reflexivity | constructor].
Qed.

(** The list comes within the tolerance of 120: the detector fires, the
    loop goes on from offset 121 and asks for 41. *)
Example scenario_completion :
  exists w,
    run cfg0
      [DraggingChanged (Fin 1); EvalCheckAutoscroll; Inputs frame1;
       EvalOnScrollNode]
      (initial RefScrollable frame0) = Some w
    /\ Forall2 same (scrolled (js w)) [Fin 41; Fin 120]
    /\ length (awaiting (js w)) = 1%nat.
Proof.
  eexists. split; [reflexivity|].
  split; [|reflexivity].
  repeat (constructor; [reflexivity|]). constructor.
Qed.

(** The same drag with the list at offset 0: [isScrolledUp] holds, the
    node does not even call [autoscroll]; called all the same, [autoscroll]
    gets the sentinel, issues no command and frees the guard. *)
Example scenario_at_top :
  let top := set_inputs
               {| scrollOffset := Fin 0;
                  scrollViewSize := Fin 1000;
                  containerSize := Fin 400;
                  hoverAnim := Fin 10;
                  isDraggingCell := Fin 1;
                  activeCellSize := Fin 40;
                  panGestureState := Fin 4;
                  targetScrollOffset := Fin 0;
                  isAutoScrollInProgressNative := Fin 0 |}
               frame0 in
  checkAutoscroll cfg0 top = None
  /\ exists w,
      run cfg0
        [DraggingChanged (Fin 1); CallAutoscroll (Arr (autoscrollParams cfg0 top))]
        (initial RefScrollable top) = Some w
      /\ scrolled (js w) = []
      /\ autoscrollLooping (js w) = false.
Proof.
  split; [reflexivity|].
  eexists. split; [reflexivity|]. split; reflexivity.
Qed.

(** A viewport reference that is not an object: the promise is rejected,
    the rejection swallowed, and the second iteration leaves the loop. *)
Example scenario_rejected :
  exists w,
    run cfg0 [DraggingChanged (Fin 1); EvalCheckAutoscroll]
      (initial RefNull frame0) = Some w
    /\ scrolled (js w) = []
    /\ awaiting (js w) = []
    /\ autoscrollLooping (js w) = false
    /\ inProgressJS (js w) = true.
Proof.
  eexists. split; [reflexivity|]. repeat split.
Qed.

(** * Part III: more of the hook, and the decorators *)

(** ** The loop in closed form *)

Lemma loop_step (cfg : Config) (fuel : nat) (l : list num) (w : World) :
  loop cfg (S fuel) (Arr l) w
  = if shouldScroll cfg w l then
      match scrollToAsync (targetOf cfg w l) w with
      | (w', Pending p) => Suspended (wait p (Arr l) w')
      | (w', Rejected) => loop cfg fuel (Arr l) w'
      end
    else Exited w.
Proof. reflexivity. Qed.

Lemma scrollToAsync_arms (offset : num) (w : World) :
  inProgressJS (js (fst (scrollToAsync offset w))) = true.
Proof. apply (scrollToAsync_effect offset w). Qed.

Lemma shouldScroll_in_flight (cfg : Config) (w : World) (l : list num) :
  inProgressJS (js w) = true -> shouldScroll cfg w l = false.
Proof.
  intros H. unfold shouldScroll, targetOf.
  rewrite getScrollTargetOffset_in_flight by exact H. reflexivity.
Qed.

Lemma finally_loop (cfg : Config) (cur : Params) (w : World) :
  finally (loop cfg loop_fuel cur w) = Some (after_loop cfg cur w).
Proof.
  unfold loop_fuel, after_loop. destruct cur as [l|]; [|reflexivity].
  rewrite loop_step. destruct (shouldScroll cfg w l); [|reflexivity].
  pose proof (scrollToAsync_arms (targetOf cfg w l) w) as A.
  destruct (scrollToAsync (targetOf cfg w l) w) as [w' [p|]];
    [reflexivity|].
  cbn [fst] in A. rewrite loop_step, shouldScroll_in_flight by exact A.
  reflexivity.
Qed.

Lemma scrollToAsync_eq (offset : num) (w : World) :
  scrollToAsync offset w
  = match flatlistRef (js w) with
    | RefNull => (armed offset w, Rejected)
    | r =>
        (if scrolls r then on_js (scrollToOffset offset) (armed offset w)
         else armed offset w,
         Pending (nextPromise (js w)))
    end.
Proof.
  unfold scrollToAsync. cbn [js on_js on_anim set_inProgressJS flatlistRef new_promise].
  destruct (flatlistRef (js w)) as [ | [ | ] | | ]; reflexivity.
Qed.

Lemma after_loop_eq (cfg : Config) (l : list num) (w : World) :
  after_loop cfg (Arr l) w
  = if shouldScroll cfg w l then
      let t := targetOf cfg w l in
      match flatlistRef (js w) with
      | RefNull => unlock (armed t w)
      | r =>
          wait (nextPromise (js w)) (Arr l)
            (if scrolls r then on_js (scrollToOffset t) (armed t w)
             else armed t w)
      end
    else unlock w.
Proof.
  unfold after_loop. destruct (shouldScroll cfg w l); [|reflexivity].
  rewrite scrollToAsync_eq.
  destruct (flatlistRef (js w)) as [ | [ | ] | | ]; reflexivity.
Qed.

Lemma shouldScroll_valid (cfg : Config) (w : World) (l : list num) :
  shouldScroll cfg w l = true ->
  valid_offset (targetOf cfg w l) /\ isDraggingCellJS (js w) = true.
Proof.
  unfold shouldScroll. cbv zeta. rewrite !andb_true_iff.
  intros [[[H1 H2] _] _]. split; assumption.
Qed.

(** A run of the loop started with no loop waiting keeps [hook_inv]. *)
Lemma after_loop_inv (cfg : Config) (cur : Params) (w : World) :
  awaiting (js w) = [] -> autoscrollLooping (js w) = true ->
  Forall valid_offset (scrolled (js w)) ->
  match scrolled (js w) with
  | [] => True
  | x :: _ => targetScrollOffset (anim w) = x
  end ->
  (scrolls (flatlistRef (js w)) = false -> scrolled (js w) = []) ->
  hook_inv (after_loop cfg cur w).
Proof.
  intros A L V H N. destruct cur as [l|].
  - rewrite after_loop_eq. destruct (shouldScroll cfg w l) eqn:C.
    + destruct (shouldScroll_valid cfg w l C) as [Vt _].
      cbv zeta. unfold hook_inv, single_flight.
      destruct (flatlistRef (js w)) as [ | [ | ] | | ] eqn:R; cbn;
        rewrite ?A, ?R; cbn;
        repeat split; try congruence; try discriminate; auto;
        try (rewrite N by reflexivity; exact I).
    + unfold hook_inv, single_flight. cbn. rewrite A.
      repeat split; try congruence; auto.
  - unfold hook_inv, single_flight. cbn. rewrite A.
    repeat split; try congruence; auto.
Qed.

Lemma autoscroll_eq (cfg : Config) (p : Params) (w : World) :
  autoscroll cfg p w
  = Some (if autoscrollLooping (js w) then w
          else after_loop cfg p (on_js (set_autoscrollLooping true) w)).
Proof.
  unfold autoscroll. destruct (autoscrollLooping (js w)); [reflexivity|].
  apply finally_loop.
Qed.

(** Under the guard's invariant a completion either finds no loop, and
    only clears the JS flag, or resumes the one loop. *)
Lemma onAutoscrollComplete_eq (cfg : Config) (v : Params) (w : World) :
  single_flight (js w) ->
  onAutoscrollComplete cfg v w
  = Some (match awaiting (js w) with
          | [] => on_js (set_inProgressJS false) w
          | _ :: _ =>
              after_loop cfg v
                (on_js (set_awaiting []) (on_js (set_inProgressJS false) w))
          end).
Proof.
  intros I. unfold onAutoscrollComplete.
  change (resolveAutoscroll (js (on_js (set_inProgressJS false) w)))
    with (resolveAutoscroll (js w)).
  unfold single_flight in I.
  destruct (awaiting (js w)) as [|[q c] [|k ks]] eqn:A; [ | | contradiction].
  - destruct (resolveAutoscroll (js w)) as [p|]; [|reflexivity].
    rewrite resolve_idle by exact A. f_equal.
    destruct w as [a s]. destruct s. cbn in *. subst. reflexivity.
  - destruct I as [_ R]. rewrite R.
    rewrite (resolve_single cfg q c) by exact A. apply finally_loop.
Qed.

Lemma exec_hook_inv (cfg : Config) (e : Event) (w : World) :
  hook_inv w -> exists w', exec cfg e w = Some w' /\ hook_inv w'.
Proof.
  intros (I & F & V & H & N).
  assert (AC : forall v a',
             targetScrollOffset a' = targetScrollOffset (anim w) ->
             exists w', onAutoscrollComplete cfg v {| anim := a'; js := js w |}
                        = Some w' /\ hook_inv w').
  { intros v a' Ha. rewrite onAutoscrollComplete_eq by exact I.
    eexists. split; [reflexivity|]. cbn [js].
    destruct (awaiting (js w)) as [|k ks] eqn:A.
    - unfold hook_inv, single_flight in *. cbn. rewrite A in *.
      repeat split; auto; try congruence. rewrite Ha. exact H.
    - apply after_loop_inv; cbn; auto.
      + unfold single_flight in I. rewrite A in I.
        destruct k as [q c], ks; [tauto | contradiction].
      + rewrite Ha. exact H. }
  destruct e as [i | v | | | p | p]; cbn [exec].
  - eexists. split; [reflexivity|]. unfold hook_inv. cbn. auto.
  - eexists. split; [reflexivity|]. unfold hook_inv. cbn. auto.
  - destruct (checkAutoscroll cfg (anim w)) as [params|].
    + rewrite autoscroll_eq. eexists. split; [reflexivity|].
      destruct (autoscrollLooping (js w)) eqn:L; [unfold hook_inv; auto|].
      apply after_loop_inv; cbn; auto.
      unfold single_flight in I.
      destruct (awaiting (js w)) as [|[q c] [|k ks]];
        [reflexivity | | contradiction].
      destruct I as [I _]. congruence.
    + eexists. split; [reflexivity|]. unfold hook_inv. auto.
  - rewrite onScrollNode_fires.
    destruct (Spec.completes _ _ _ _ _ _).
    + apply (AC _ (set_isAutoScrollInProgressNative (Fin 0) (anim w))).
      reflexivity.
    + exists w. split; [destruct w; reflexivity|]. unfold hook_inv. auto.
  - rewrite autoscroll_eq. eexists. split; [reflexivity|].
    destruct (autoscrollLooping (js w)) eqn:L; [unfold hook_inv; auto|].
    apply after_loop_inv; cbn; auto.
    unfold single_flight in I.
    destruct (awaiting (js w)) as [|[q c] [|k ks]];
      [reflexivity | | contradiction].
    destruct I as [I _]. congruence.
  - destruct w as [a s]. apply (AC p a). reflexivity.
Qed.

Lemma run_hook_inv (cfg : Config) (es : list Event) :
  forall w, hook_inv w -> exists w', run cfg es w = Some w' /\ hook_inv w'.
Proof.
  induction es as [|e es IH]; intros w I.
  - exists w. split; [reflexivity | exact I].
  - destruct (exec_hook_inv cfg e w I) as (w1 & E & I1).
    cbn [run]. rewrite E. apply IH, I1.
Qed.

Lemma initial_hook_inv (ref : FlatlistRef) (a : Animated) :
  hook_inv (initial ref a).
Proof.
  unfold hook_inv, single_flight. cbn. repeat split; auto; discriminate.
Qed.

Lemma after_loop_pace (cfg : Config) (cur : Params) (w : World) :
  awaiting (js w) = [] -> (pace (after_loop cfg cur w) <= pace w)%nat.
Proof.
  intros A. unfold pace at 2. rewrite A. destruct cur as [l|].
  - rewrite after_loop_eq. destruct (shouldScroll cfg w l).
    + cbv zeta.
      destruct (flatlistRef (js w)) as [ | [ | ] | | ]; unfold pace; cbn;
        rewrite ?A; cbn; lia.
    + unfold pace. cbn. rewrite A. lia.
  - unfold pace. cbn. rewrite A. lia.
Qed.

Lemma exec_pace (cfg : Config) (e : Event) (w w' : World) :
  single_flight (js w) -> exec cfg e w = Some w' ->
  (pace w' <= pace w + if completion e then 1 else 0)%nat.
Proof.
  intros I.
  assert (AS : forall p w', autoscroll cfg p w = Some w' ->
                            (pace w' <= pace w + 0)%nat).
  { intros p w1. rewrite autoscroll_eq. intros [= <-].
    destruct (autoscrollLooping (js w)) eqn:L; [lia|].
    assert (A : awaiting (js w) = []).
    { unfold single_flight in I.
      destruct (awaiting (js w)) as [|[q c] [|k ks]];
        [reflexivity | | contradiction].
      destruct I as [I _]. congruence. }
    pose proof (after_loop_pace cfg p
                  (on_js (set_autoscrollLooping true) w) A) as P.
    unfold pace at 2 in P. cbn in P. unfold pace at 2. lia. }
  assert (AC : forall v a' w',
             onAutoscrollComplete cfg v {| anim := a'; js := js w |}
             = Some w' -> (pace w' <= pace w + 1)%nat).
  { intros v a' w1. rewrite onAutoscrollComplete_eq by exact I.
    intros [= <-]. cbn [js].
    destruct (awaiting (js w)) as [|k ks] eqn:A.
    - unfold pace. cbn. rewrite A. lia.
    - pose proof (after_loop_pace cfg v
                    (on_js (set_awaiting [])
                       (on_js (set_inProgressJS false)
                          {| anim := a'; js := js w |})) eq_refl) as P.
      unfold pace at 2 in P. cbn in P. unfold pace at 2. rewrite A. lia. }
  destruct e as [i | v | | | p | p]; cbn [exec completion].
  - intros [= <-]. unfold pace. cbn. lia.
  - intros [= <-]. unfold pace. cbn. lia.
  - destruct (checkAutoscroll cfg (anim w)) as [params|].
    + apply AS.
    + intros [= <-]. lia.
  - rewrite onScrollNode_fires. destruct (Spec.completes _ _ _ _ _ _).
    + apply AC.
    + intros [= <-]. unfold pace. cbn. lia.
  - apply AS.
  - destruct w as [a s]. apply AC.
Qed.

Lemma run_pace (cfg : Config) (es : list Event) :
  forall w w', hook_inv w -> run cfg es w = Some w' ->
  (pace w' <= pace w + length (filter completion es))%nat.
Proof.
  induction es as [|e es IH]; intros w w' I.
  - intros [= <-]. cbn. lia.
  - cbn [run]. destruct (exec_hook_inv cfg e w I) as (w1 & E & I1).
    rewrite E. intros R. pose proof (IH w1 w' I1 R) as P.
    pose proof (exec_pace cfg e w w1 (proj1 I) E) as P1.
    cbn [filter]. destruct (completion e); cbn [length]; lia.
Qed.

(** X1.  From the first render on, whatever happens to the hook, every
    offset it has sent to [scrollToOffset] passed the test
    [targetOffset >= 0] (so none is negative or NaN), and the last one sent
    is the value [targetScrollOffset] holds for the completion detector. *)
Theorem commands_valid (cfg : Config) (ref : FlatlistRef) (a : Animated)
    (es : list Event) :
  exists w,
    run cfg es (initial ref a) = Some w
    /\ Forall valid_offset (scrolled (js w))
    /\ match scrolled (js w) with
       | [] => True
       | x :: _ => targetScrollOffset (anim w) = x
       end.
Proof.
  destruct (run_hook_inv cfg es (initial ref a) (initial_hook_inv ref a))
    as (w & R & _ & _ & V & H & _).
  exists w. repeat split; assumption.
Qed.

(** X2.  While the loop waits for a scroll to complete, the JS-side
    in-flight flag is set, so [getScrollTargetOffset] answers -1 to
    whoever asks: no second target can be computed during a scroll. *)
Theorem waiting_blocks_target (cfg : Config) (ref : FlatlistRef)
    (a : Animated) (es : list Event) :
  exists w,
    run cfg es (initial ref a) = Some w
    /\ (awaiting (js w) <> [] ->
        inProgressJS (js w) = true
        /\ forall dT dB q up down,
            getScrollTargetOffset cfg (js w) dT dB q up down = Fin (-1)).
Proof.
  destruct (run_hook_inv cfg es (initial ref a) (initial_hook_inv ref a))
    as (w & R & _ & F & _).
  exists w. split; [exact R|]. intros A. split; [exact (F A)|].
  intros. apply getScrollTargetOffset_in_flight, F, A.
Qed.

(** X3.  Scroll commands are paced by completions: after any sequence of
    events the hook has sent at most one command more than the number of
    events that can deliver a completion ([onScrollNode] evaluated, or
    [onAutoscrollComplete] called). *)
Theorem commands_paced (cfg : Config) (ref : FlatlistRef) (a : Animated)
    (es : list Event) :
  exists w,
    run cfg es (initial ref a) = Some w
    /\ (length (scrolled (js w)) <= 1 + length (filter completion es))%nat.
Proof.
  destruct (run_hook_inv cfg es (initial ref a) (initial_hook_inv ref a))
    as (w & R & _).
  exists w. split; [exact R|].
  pose proof (run_pace cfg es _ w (initial_hook_inv ref a) R) as P.
  unfold pace in P. cbn in P. lia.
Qed.

Lemma isAtEdge_truthy (cfg : Config) (a : Animated) :
  JS.truthy (isAtEdge cfg a)
  = JS.truthy (isAtTopEdge cfg a) || JS.truthy (isAtBottomEdge cfg a).
Proof.
  unfold isAtEdge, Node.or. simpl existsb.
  rewrite truthy_of_bool, orb_false_r. apply orb_comm.
Qed.

(** ** What a call leaves behind *)

Lemma unlock_lock (w : World) :
  autoscrollLooping (js w) = false ->
  unlock (on_js (set_autoscrollLooping true) w) = w.
Proof.
  destruct w as [a s]. destruct s. cbn. intros ->. reflexivity.
Qed.

Lemma shouldScroll_lock (cfg : Config) (w : World) (l : list num) (b : bool) :
  shouldScroll cfg (on_js (set_autoscrollLooping b) w) l
  = shouldScroll cfg w l.
Proof. reflexivity. Qed.

(** X4.  A call of [autoscroll] that finds nothing to scroll (the
    continuation check fails on the first iteration, or the parameters
    cannot be destructured) leaves the hook exactly as it was: no flag, no
    target, no promise has changed, and the guard is free again. *)
Theorem autoscroll_noop (cfg : Config) (cur : Params) (w : World) :
  autoscrollLooping (js w) = false ->
  match cur with
  | Arr l => shouldScroll cfg w l = false
  | NotIterable => True
  end ->
  autoscroll cfg cur w = Some w.
Proof.
  intros L H. rewrite autoscroll_eq, L. f_equal. destruct cur as [l|].
  - rewrite after_loop_eq, shouldScroll_lock, H. apply unlock_lock, L.
  - apply unlock_lock, L.
Qed.

Lemma checkAutoscroll_in_flight (cfg : Config) (a : Animated) :
  JS.truthy (isAutoScrollInProgressNative a) = true ->
  checkAutoscroll cfg a = None.
Proof.
  intros H. unfold checkAutoscroll, checkAutoscroll_cond.
  unfold Node.and at 1. cbn [forallb]. unfold Node.not at 3.
  rewrite H. cbn [negb JS.of_bool JS.truthy].
  change (Qeq_bool 0 0) with true. cbn [negb].
  rewrite !andb_false_r. reflexivity.
Qed.

(** X5.  With a viewport reference that is not an object the lookup of
    line 119 throws inside the promise, and the loop swallows the
    rejection: [autoscroll] still returns, the guard is free, no loop
    waits and nothing was sent to the list.  But unless nothing was
    attempted, both in-flight flags stay set, and [checkAutoscroll] makes no
    further call as long as the native flag is not cleared. *)
Theorem rejection_swallowed (cfg : Config) (cur : Params) (w : World) :
  flatlistRef (js w) = RefNull ->
  autoscrollLooping (js w) = false ->
  exists w',
    autoscroll cfg cur w = Some w'
    /\ autoscrollLooping (js w') = false
    /\ awaiting (js w') = awaiting (js w)
    /\ scrolled (js w') = scrolled (js w)
    /\ (w' = w
        \/ (inProgressJS (js w') = true
            /\ isAutoScrollInProgressNative (anim w') = Fin 1
            /\ forall i, checkAutoscroll cfg (set_inputs i (anim w')) = None)).
Proof.
  intros R L. rewrite autoscroll_eq, L. eexists. split; [reflexivity|].
  destruct cur as [l|].
  - rewrite after_loop_eq, shouldScroll_lock.
    destruct (shouldScroll cfg w l).
    + cbv zeta. cbn [js on_js flatlistRef set_autoscrollLooping].
      rewrite R. cbn. repeat split. right. repeat split.
      intros i. apply checkAutoscroll_in_flight. reflexivity.
    + rewrite unlock_lock by exact L. repeat split; auto.
  - rewrite unlock_lock by exact L. repeat split; auto.
Qed.

Lemma ltb_leb (x y : num) : (x <? y)%num = true -> (x <=? y)%num = true.
Proof.
  destruct x as [a | | |], y as [b | | |]; cbn; try discriminate; auto.
  intros H. apply Qltb_lt in H. apply Qle_bool_iff. lra.
Qed.

Lemma leb_not_ltb (x y : num) :
  (x <=? y)%num = true -> (x <? y)%num = false -> same x y.
Proof.
  destruct x as [a | | |], y as [b | | |]; cbn; try discriminate; auto.
  intros H1 H2. apply Qle_bool_iff in H1. apply Qltb_ge in H2. lra.
Qed.

(** X6.  The trigger and the target policy agree but for the threshold
    itself: on a snapshot for which [checkAutoscroll] calls [autoscroll],
    with nothing in flight on the JS side, [getScrollTargetOffset] lets a
    target through exactly when one of the two distances is strictly below
    the threshold ([checkAutoscroll] tests [<=], the policy [<]); when it
    does not, a distance is equal to the threshold. *)
Theorem trigger_then_target (cfg : Config) (a : Animated) (s : JSState)
    (params : list num) :
  checkAutoscroll cfg a = Some params ->
  inProgressJS s = false ->
  let T := autoscrollThreshold cfg in
  let produced :=
    produces_target cfg s (distToTopEdge a) (distToBottomEdge a)
      (JS.truthy (isScrolledUp cfg a)) (JS.truthy (isScrolledDown cfg a)) in
  produced = (distToTopEdge a <? T)%num || (distToBottomEdge a <? T)%num
  /\ (produced = false ->
      same (distToTopEdge a) T \/ same (distToBottomEdge a) T).
Proof.
  unfold checkAutoscroll, checkAutoscroll_cond.
  unfold Node.and at 1. cbn [forallb].
  unfold Node.not, Node.and. cbn [forallb].
  rewrite !truthy_of_bool, !andb_true_r, isAtEdge_truthy.
  unfold isAtTopEdge, isAtBottomEdge, Node.lessOrEq.
  rewrite !truthy_of_bool.
  intros H Hs. cbv zeta. unfold produces_target. rewrite Hs.
  set (T := autoscrollThreshold cfg) in *.
  set (dT := distToTopEdge a) in *. set (dB := distToBottomEdge a) in *.
  pose proof (ltb_leb dT T) as LT. pose proof (ltb_leb dB T) as LB.
  pose proof (leb_not_ltb dT T) as ET. pose proof (leb_not_ltb dB T) as EB.
  destruct (dT <=? T)%num, (dB <=? T)%num, (dT <? T)%num, (dB <? T)%num,
    (JS.truthy (isScrolledUp cfg a)), (JS.truthy (isScrolledDown cfg a));
    cbn in H |- *; try discriminate H;
    try (specialize (LT eq_refl); discriminate LT);
    try (specialize (LB eq_refl); discriminate LB);
    (split; [reflexivity | intros E; try discriminate E; auto]).
Qed.

(** X7.  A list scrolled up and down at once (its content fits the
    viewport) is never scrolled: [checkAutoscroll] makes no call wherever
    the cell is dragged, and [getScrollTargetOffset] returns -1 for every
    pair of distances. *)
Theorem fits_viewport_never_scrolls (cfg : Config) (a : Animated) :
  JS.truthy (isScrolledUp cfg a) = true ->
  JS.truthy (isScrolledDown cfg a) = true ->
  checkAutoscroll cfg a = None
  /\ forall s dT dB q,
      getScrollTargetOffset cfg s dT dB q true true = Fin (-1).
Proof.
  intros U D. split.
  - unfold checkAutoscroll, checkAutoscroll_cond.
    unfold Node.and at 1. cbn [forallb].
    unfold Node.not, Node.and. cbn [forallb].
    rewrite !truthy_of_bool, !andb_true_r, isAtEdge_truthy, U, D.
    destruct (JS.truthy (isAtTopEdge cfg a)),
      (JS.truthy (isAtBottomEdge cfg a)); reflexivity.
  - intros s dT dB q. unfold getScrollTargetOffset.
    destruct (inProgressJS s); [reflexivity|].
    destruct (dT <? autoscrollThreshold cfg)%num,
      (dB <? autoscrollThreshold cfg)%num; reflexivity.
Qed.

(** ** The size and the direction of a step *)

Lemma speed_pos (cfg : Config) (v : Q) :
  autoscrollSpeed cfg = Fin v -> 0 < v ->
  exists v', speed cfg = Fin v' /\ 0 < v'.
Proof.
  intros E Hv. unfold speed. rewrite E. destruct (isAndroid cfg).
  - exists (v / 10). split; [reflexivity|].
    apply Qlt_shift_div_l; lra.
  - exists v. split; [reflexivity | exact Hv].
Qed.

(** The target on finite, non-negative arguments, when the guard lets one
    through: the step [d] is positive and at most the effective speed; the
    target is [q - d] clamped at 0 going up, [q + d] going down. *)
Lemma target_value (cfg : Config) (s : JSState) (t v dT dB q : Q)
    (up down : bool) :
  autoscrollThreshold cfg = Fin t -> autoscrollSpeed cfg = Fin v -> 0 < v ->
  0 <= dT -> 0 <= dB ->
  produces_target cfg s (Fin dT) (Fin dB) up down = true ->
  exists x d v',
    getScrollTargetOffset cfg s (Fin dT) (Fin dB) (Fin q) up down = Fin x
    /\ speed cfg = Fin v' /\ 0 < d /\ d <= v'
    /\ ((dT < t /\ up = false
         /\ ((0 <= q - d /\ x == q - d) \/ (q - d < 0 /\ x == 0)))
        \/ (t <= dT /\ dB < t /\ down = false /\ x == q + d)).
Proof.
  intros ET EV Hv HdT HdB.
  destruct (speed_pos cfg v EV Hv) as (v' & Ev & Hv').
  unfold produces_target, getScrollTargetOffset, speedPct.
  rewrite ET, Ev. cbn [JS.ltb].
  destruct (inProgressJS s); [discriminate|]. cbn [negb andb].
  destruct (Qltb dT t) eqn:Eu.
  - apply Qltb_lt in Eu. destruct (ramp_pos dT t HdT Eu) as [R1 R2].
    destruct up; [destruct (Qltb dB t); discriminate|].
    destruct (Qltb dB t && down); [discriminate|]. intros _.
    cbn [orb andb negb]. rewrite div_Fin by lra.
    cbn [JS.sub JS.add JS.neg JS.mul]. rewrite max_Fin.
    assert (D0 : 0 < (1 - dT / t) * v')
      by (apply Qmult_lt_0_compat; lra).
    assert (D1 : (1 - dT / t) * v' <= 1 * v')
      by (apply Qmult_le_compat_r; lra).
    eexists. exists ((1 - dT / t) * v'), v'.
    split; [reflexivity|]. split; [reflexivity|].
    split; [exact D0|]. split; [lra|]. left.
    split; [exact Eu|]. split; [reflexivity|].
    unfold Qminus in *.
    destruct (Qle_bool 0 (q + - ((1 + - (dT / t)) * v'))) eqn:C;
      tests_to_props; [left | right]; split; lra.
  - apply Qltb_ge in Eu.
    destruct (Qltb dB t) eqn:Ed; [|discriminate].
    apply Qltb_lt in Ed. destruct (ramp_pos dB t HdB Ed) as [R1 R2].
    destruct down; [discriminate|]. intros _.
    cbn [orb andb negb]. rewrite div_Fin by lra.
    cbn [JS.sub JS.add JS.neg JS.mul].
    assert (D0 : 0 < (1 - dB / t) * v')
      by (apply Qmult_lt_0_compat; lra).
    assert (D1 : (1 - dB / t) * v' <= 1 * v')
      by (apply Qmult_le_compat_r; lra).
    eexists. exists ((1 - dB / t) * v'), v'.
    split; [reflexivity|]. split; [reflexivity|].
    split; [exact D0|]. split; [lra|]. right.
    repeat split; assumption.
Qed.



(** ** The cell decorators *)

(** Interpolation from [0, 1]: the line from [s] at 0 to [e] at 1. *)
Lemma interpolate_unit (x s e : Q) :
  exists r,
    Decorators.interpolateFn (Fin x) (Fin 0, Fin 1) (Fin s, Fin e) = Fin r
    /\ r == s + x * (e - s).
Proof.
  eexists. split; [reflexivity|]. field.
Qed.

Lemma between_ends (x s e r : Q) :
  0 <= x -> x <= 1 -> r == s + x * (e - s) ->
  (s <= e -> s <= r /\ r <= e) /\ (e <= s -> e <= r /\ r <= s).
Proof.
  intros H0 H1 E. split; intros H.
  - assert (0 <= x * (e - s)) by (apply Qmult_le_0_compat; lra).
    assert ((1 - x) * (e - s) >= 0) by (apply Qmult_le_0_compat; lra).
    setoid_replace ((1 - x) * (e - s)) with ((e - s) - x * (e - s)) in H3
      by ring.
    lra.
  - assert (0 <= x * (s - e)) by (apply Qmult_le_0_compat; lra).
    assert ((1 - x) * (s - e) >= 0) by (apply Qmult_le_0_compat; lra).
    setoid_replace ((1 - x) * (s - e)) with ((s - e) - x * (s - e)) in H3
      by ring.
    setoid_replace (x * (e - s)) with (- (x * (s - e))) in E by ring.
    lra.
Qed.



(** X12.  [ShadowDecorator]: a cell that is not active has no shadow at
    all: elevation 0, radius 0, transparent, opacity 0, whatever the props.
    For an active cell the elevation, radius and colour are the props (10,
    5 and black by default), and for an animation value in [0, 1] and a
    shadow opacity [o >= 0] (0.25 by default) the opacity is between 0 and
    [o]. *)
Theorem shadow_decorator (x : Q) (elevation color radius : _)
    (opacity : option Q) :
  0 <= x -> x <= 1 ->
  let o := Decorators.default opacity (25 # 100) in
  Decorators.ShadowDecorator false (Fin x) elevation color
    (option_map Fin opacity) radius
  = {| Decorators.elevation := Fin 0;
       Decorators.shadowRadius := Fin 0;
       Decorators.shadowColor := Decorators.transparent;
       Decorators.shadowOpacity := Fin 0 |}
  /\ exists r,
      Decorators.ShadowDecorator true (Fin x) elevation color
        (option_map Fin opacity) radius
      = {| Decorators.elevation := Decorators.default elevation (Fin 10);
           Decorators.shadowRadius := Decorators.default radius (Fin 5);
           Decorators.shadowColor :=
             Decorators.default color Decorators.black;
           Decorators.shadowOpacity := Fin r |}
      /\ r == x * o
      /\ (0 <= o -> 0 <= r /\ r <= o).
Proof.
  intros H0 H1 o. split; [reflexivity|].
  exists (x * o). split.
  - unfold Decorators.ShadowDecorator. cbv zeta.
    replace (Decorators.default (option_map Fin opacity) (Fin (25 # 100)))
      with (Fin o) by (destruct opacity; reflexivity).
    reflexivity.
  - split; [reflexivity|]. intros Ho.
    assert (0 <= x * o) by (apply Qmult_le_0_compat; assumption).
    assert (0 <= (1 - x) * o) by (apply Qmult_le_0_compat; lra).
    setoid_replace ((1 - x) * o) with (o - x * o) in H2 by ring.
    lra.
Qed.

(** ** Instances *)

Lemma waiting_blocks_target_witness :
  exists w,
    run cfg0 [DraggingChanged (Fin 1); EvalCheckAutoscroll]
      (initial RefScrollable frame0) = Some w
    /\ inProgressJS (js w) = true.
Proof.
  destruct (waiting_blocks_target cfg0 RefScrollable frame0
              [DraggingChanged (Fin 1); EvalCheckAutoscroll])
    as (w & R & H).
  exists w. split; [exact R|]. apply H.
  vm_compute in R. injection R as <-. discriminate.
Defined.

Lemma autoscroll_noop_witness :
  autoscroll cfg0 (Arr (autoscrollParams cfg0 frame0)) world_idle
  = Some world_idle.
Proof.
  apply (autoscroll_noop cfg0 (Arr (autoscrollParams cfg0 frame0))
           world_idle); reflexivity.
Defined.

Lemma rejection_swallowed_witness :
  exists w',
    autoscroll cfg0 (Arr (autoscrollParams cfg0 frame0)) world_null
    = Some w'
    /\ autoscrollLooping (js w') = false
    /\ scrolled (js w') = [].
Proof.
  destruct (rejection_swallowed cfg0 (Arr (autoscrollParams cfg0 frame0))
              world_null eq_refl eq_refl)
    as (w' & A & L & _ & S & _).
  exists w'. repeat split; assumption.
Defined.

Lemma trigger_then_target_witness :
  produces_target cfg0 js0 (distToTopEdge frame0) (distToBottomEdge frame0)
    (JS.truthy (isScrolledUp cfg0 frame0))
    (JS.truthy (isScrolledDown cfg0 frame0))
  = true.
Proof.
  rewrite (proj1 (trigger_then_target cfg0 frame0 js0
                    (autoscrollParams cfg0 frame0) eq_refl eq_refl)).
  reflexivity.
Defined.

Lemma fits_viewport_never_scrolls_witness :
  checkAutoscroll cfg0 frame_fits = None.
Proof.
  apply (fits_viewport_never_scrolls cfg0 frame_fits); reflexivity.
Defined.





Lemma shadow_decorator_witness :
  exists r,
    Decorators.shadowOpacity
      (Decorators.ShadowDecorator true (Fin (1 # 2)) None None None None)
    = Fin r
    /\ 0 <= r /\ r <= 25 # 100.
Proof.
  destruct (shadow_decorator (1 # 2) None None None None) as (_ & r & E & _ & B);
    [unfold Qle; simpl; lia | unfold Qle; simpl; lia |].
  exists r. split; [exact (f_equal Decorators.shadowOpacity E)|].
  apply B. unfold Qle; simpl; lia.
Defined.
